(** * ayunda: a single-user Telegram bookkeeping bot (src/main.go)

    A shallow embedding of the dialog engine and of the monthly summary of
    [src/main.go], and the properties of the specification proved (or
    refuted) on it.

    Layout:
    - [GoTime], [GoFmt], [GoStrconv]: the parts of Go's standard library the
      program calls ([time.Time.Format] for three layouts, the [%.2f] verb,
      [strconv.ParseFloat]), over binary64 floats ([PrimFloat.float]);
    - the data model ([TransactionState], [Transaction], [World]);
    - the handlers, translated function by function inside [Section Bot],
      whose variables are the package-level configuration
      ([ALLOWED_USER_ID], [categories]) and the two library functions the
      program only calls ([ParseFloat], SQLite's [SUM]);
    - the vocabulary of the statements and the concrete worlds of the runs;
    - lemmas and theorems: first the library models, then the handlers
      (for any configuration, parser and aggregate), then concrete runs. *)

From Stdlib Require Import ZArith String Ascii List Bool Lia Floats.
From stdpp Require Import base option gmap strings list.

Local Open Scope string_scope.
Local Open Scope list_scope.
Local Open Scope Z_scope.

(** ** Decimal digits *)

Definition digit (n : Z) : ascii := ascii_of_nat (48 + Z.to_nat n).

Fixpoint utoa_fuel (fuel : nat) (n : Z) (acc : string) : string :=
  match fuel with
  | O => acc
  | S fuel' =>
      let acc' := String (digit (n mod 10)) acc in
      if n <? 10 then acc' else utoa_fuel fuel' (n / 10) acc'
  end.

(** The decimal digits of a non-negative integer, most significant first. *)
Definition utoa (n : Z) : string := utoa_fuel (S (Z.to_nat (Z.log2 n))) n "".

(** The line feed of Go's ["\n"]. *)
Definition nl : string := String (ascii_of_nat 10) EmptyString.

(** ** Go's [time] package, as far as the program uses it *)

Module GoTime.

(** A [time.Time]: an instant (seconds and nanoseconds since the Unix
    epoch) together with the offset, in seconds east of UTC, of the
    location it is presented in. *)
Record Time := mkTime { unix : Z; nsec : Z; offset : Z }.

(** [t.UTC()] and [t.In(time.FixedZone(name, off))]: same instant, other
    location. *)
Definition UTC (t : Time) : Time := mkTime (unix t) (nsec t) 0.
Definition FixedZone (name : string) (off : Z) : Z := off.
Definition In (t : Time) (loc : Z) : Time := mkTime (unix t) (nsec t) loc.

(** Seconds since the epoch of the civil clock of [t]'s location. *)
Definition abs (t : Time) : Z := unix t + offset t.

(** Days since 1970-01-01 to (year, month, day) of the proleptic
    Gregorian calendar. *)
Definition civil_of_days (z : Z) : Z * Z * Z :=
  let z := z + 719468 in
  let era := z / 146097 in
  let doe := z mod 146097 in
  let yoe := (doe - doe / 1460 + doe / 36524 - doe / 146096) / 365 in
  let doy := doe - (365 * yoe + yoe / 4 - yoe / 100) in
  let mp := (5 * doy + 2) / 153 in
  let d := doy - (153 * mp + 2) / 5 + 1 in
  let m := if mp <? 10 then mp + 3 else mp - 9 in
  (if m <=? 2 then yoe + era * 400 + 1 else yoe + era * 400, m, d).

Definition Year (t : Time) : Z := fst (fst (civil_of_days (abs t / 86400))).
Definition Month (t : Time) : Z := snd (fst (civil_of_days (abs t / 86400))).
Definition Day (t : Time) : Z := snd (civil_of_days (abs t / 86400)).
Definition Hour (t : Time) : Z := (abs t mod 86400) / 3600.
Definition Minute (t : Time) : Z := (abs t mod 3600) / 60.
Definition Second (t : Time) : Z := abs t mod 60.

Fixpoint zeros (k : nat) : string :=
  match k with O => "" | S k' => String "0" (zeros k') end.

(** [appendInt]: sign, then the digits left-padded with zeros to [width]. *)
Definition appendInt (x : Z) (width : nat) : string :=
  let u := utoa (Z.abs x) in
  (if x <? 0 then "-" else "") +:+ zeros (width - String.length u) +:+ u.

Definition longMonthName (m : Z) : string :=
  match m with
  | 1 => "January" | 2 => "February" | 3 => "March" | 4 => "April"
  | 5 => "May" | 6 => "June" | 7 => "July" | 8 => "August"
  | 9 => "September" | 10 => "October" | 11 => "November" | 12 => "December"
  | _ => ""
  end.

(** The chunks [Format] cuts a layout into (the ones the program's three
    layouts contain). *)
Inductive chunk : Type :=
| stdYear | stdZeroMonth | stdLongMonth | stdZeroDay
| stdHour | stdZeroMinute | stdZeroSecond
| lit (s : string).

Definition formatChunk (t : Time) (c : chunk) : string :=
  match c with
  | stdYear => appendInt (Year t) 4
  | stdZeroMonth => appendInt (Month t) 2
  | stdLongMonth => longMonthName (Month t)
  | stdZeroDay => appendInt (Day t) 2
  | stdHour => appendInt (Hour t) 2
  | stdZeroMinute => appendInt (Minute t) 2
  | stdZeroSecond => appendInt (Second t) 2
  | lit s => s
  end.

Definition Format (t : Time) (layout : list chunk) : string :=
  fold_right (fun c acc => formatChunk t c +:+ acc) "" layout.

(** "2006-01-02 15:04:05" *)
Definition layout_DateTime : list chunk :=
  [stdYear; lit "-"; stdZeroMonth; lit "-"; stdZeroDay; lit " ";
   stdHour; lit ":"; stdZeroMinute; lit ":"; stdZeroSecond].
(** "01" *)
Definition layout_01 : list chunk := [stdZeroMonth].
(** "January 2006" *)
Definition layout_January_2006 : list chunk := [stdLongMonth; lit " "; stdYear].

End GoTime.

(** ** Go's [fmt] package: the verb [%.2f] on a float64 *)

Module GoFmt.

(** [num / den] rounded to the nearest integer, ties to even
    ([0 <= num], [0 < den]). *)
Definition round_half_even (num den : Z) : Z :=
  let q := num / den in
  match 2 * (num mod den) ?= den with
  | Lt => q
  | Eq => if Z.even q then q else q + 1
  | Gt => q + 1
  end.

(** The hundredths [n] of a magnitude, printed with two decimals. *)
Definition fixed2 (neg : bool) (n : Z) : string :=
  (if neg then "-" else "") +:+ utoa (n / 100) +:+ "." +:+
  String (digit (n / 10 mod 10)) (String (digit (n mod 10)) EmptyString).

(** The hundredths nearest to [m * 2^e]. *)
Definition hundredths (m : positive) (e : Z) : Z :=
  if 0 <=? e then Z.pos m * 100 * 2 ^ e
  else round_half_even (Z.pos m * 100) (2 ^ (- e)).

(** [fmt.Sprintf("%.2f", x)]: the exact binary value of [x] rounded to two
    decimals (ties to even); infinities and NaN print by name. *)
Definition Sprintf_f2 (x : float) : string :=
  match Prim2SF x with
  | S754_nan => "NaN"
  | S754_infinity s => if s then "-Inf" else "+Inf"
  | S754_zero s => fixed2 s 0
  | S754_finite s m e => fixed2 s (hundredths m e)
  end.

End GoFmt.

(** ** Go's [strconv.ParseFloat(s, 64)]

    The program only calls it, so the handlers below take it as a
    parameter.  [GoStrconv.ParseFloat] is the instance used to run them on
    concrete texts: it implements the documented behaviour on the special
    names (Inf, Infinity, NaN, in any case) and on decimal literals
    (sign, digits, optional fraction, optional decimal exponent), with the
    value rounded to the nearest binary64, ties to even, and [ErrRange] on
    overflow.  Hexadecimal literals and digit-separating underscores are
    outside this instance (it answers [ErrSyntax] on them). *)

Module GoStrconv.

Inductive NumError : Type := ErrSyntax | ErrRange.

Definition is_digit (c : ascii) : bool :=
  let n := nat_of_ascii c in (48 <=? n)%nat && (n <=? 57)%nat.

Definition lower (c : ascii) : ascii :=
  let n := nat_of_ascii c in
  if (65 <=? n)%nat && (n <=? 90)%nat then ascii_of_nat (n + 32) else c.

Fixpoint lower_string (s : string) : string :=
  match s with
  | EmptyString => EmptyString
  | String c s' => String (lower c) (lower_string s')
  end.

(** [special]: the names of the infinities (with an optional sign) and of
    NaN (without), case ignored. *)
Definition special (s : string) : option float :=
  let l := lower_string s in
  if String.eqb l "nan" then Some nan
  else if String.eqb l "inf" || String.eqb l "+inf"
          || String.eqb l "infinity" || String.eqb l "+infinity" then Some infinity
  else if String.eqb l "-inf" || String.eqb l "-infinity" then Some neg_infinity
  else None.

(** Reads a run of digits: the number read after [acc], how many digits,
    and the rest of the text. *)
Fixpoint read_digits (s : string) (acc : Z) (n : Z) : Z * Z * string :=
  match s with
  | String c s' =>
      if is_digit c
      then read_digits s' (10 * acc + (Z.of_nat (nat_of_ascii c) - 48)) (n + 1)
      else (acc, n, s)
  | EmptyString => (acc, n, s)
  end.

Definition read_sign (s : string) : bool * string :=
  match s with
  | String "-" s' => (true, s')
  | String "+" s' => (false, s')
  | _ => (false, s)
  end.

(** [readFloat] on a decimal literal: sign, mantissa and decimal exponent,
    so that the text denotes [mantissa * 10 ^ exp]; [None] when the text is
    not such a literal. *)
Definition readFloat (s : string) : option (bool * Z * Z) :=
  let '(neg, s1) := read_sign s in
  let '(m1, n1, s2) := read_digits s1 0 0 in
  let '(m2, n2, s3) :=
    match s2 with
    | String "." s' => read_digits s' m1 0
    | _ => (m1, 0, s2)
    end in
  if n1 + n2 =? 0 then None
  else
    match s3 with
    | EmptyString => Some (neg, m2, - n2)
    | String c s4 =>
        if Ascii.eqb (lower c) "e" then
          let '(eneg, s5) := read_sign s4 in
          let '(e, ne, s6) := read_digits s5 0 0 in
          if ne =? 0 then None
          else
            match s6 with
            | EmptyString => Some (neg, m2, (if eneg then - e else e) - n2)
            | _ => None
            end
        else None
    end.

(** [m * 10 ^ e] rounded to the nearest binary64, ties to even. *)
Definition round_decimal (neg : bool) (m : Z) (e : Z) : spec_float :=
  match m with
  | Z.pos p =>
      if 0 <=? e then
        match Z.pos p * 10 ^ e with
        | Z.pos q => binary_round prec emax neg q 0
        | _ => S754_zero neg
        end
      else
        let '(q, e', l) := SFdiv_core_binary prec emax (Z.pos p) 0 (10 ^ (- e)) 0 in
        binary_round_aux prec emax neg q e' l
  | _ => S754_zero neg
  end.

Definition ParseFloat (s : string) : float * option NumError :=
  match special s with
  | Some f => (f, None)
  | None =>
      match readFloat s with
      | None => (0%float, Some ErrSyntax)
      | Some (neg, m, e) =>
          match round_decimal neg m e with
          | S754_infinity sg => (SF2Prim (S754_infinity sg), Some ErrRange)
          | f => (SF2Prim f, None)
          end
      end
  end.

End GoStrconv.

(** ** Data model *)

(** The per-user dialog state ([TransactionState] of the source). [Step] is
    the string tag the source switches on. *)
Record TransactionState : Type := mkState {
  UserID : Z;
  Step : string;
  TransactionType : string;
  Category : string;
  Amount : float;
  Description : string
}.

(** A row of the [transactions] table, as [processDescription] inserts it
    (the [id] column is the position in the table). *)
Record Transaction : Type := mkTransaction {
  tx_type : string;
  tx_category : string;
  tx_amount : float;
  tx_description : string;
  tx_created_at : string
}.

(** An inline keyboard button: label and callback data. *)
Definition Button : Type := string * string.

(** What the program hands to [bot.Send]. *)
Inductive Outbound : Type :=
| NewMessage (chatID : Z) (text : string)
| NewMessageWithKeyboard (chatID : Z) (text : string) (keyboard : list (list Button))
| NewEditMessageText (chatID : Z) (messageID : Z) (text : string)
| NewEditMessageTextAndMarkup (chatID : Z) (messageID : Z) (text : string)
    (keyboard : list (list Button)).

(** An inbound [tgbotapi.Message]: sender, chat, text, and what
    [message.Command()] returns for it (the empty string when the text is
    not a command). *)
Record Message : Type := mkMessage {
  From_ID : Z;
  Chat_ID : Z;
  Text : string;
  Command : string
}.

(** An inbound [tgbotapi.CallbackQuery]: sender, the message it answers,
    and the payload of the button. *)
Record CallbackQuery : Type := mkCallback {
  cb_From_ID : Z;
  cb_Chat_ID : Z;
  cb_MessageID : Z;
  Data : string
}.

(** An update of the main loop: at most one of the two is looked at. *)
Record Update : Type := mkUpdate {
  upd_Message : option Message;
  upd_CallbackQuery : option CallbackQuery
}.

(** What the environment decides while one update is handled: the two
    readings of the clock ([time.Now()], in the host's local zone), whether
    [db.Prepare], [stmt.Exec] and [db.Query] fail, and the outcome of the
    report script. *)
Record Env : Type := mkEnv {
  now : GoTime.Time;
  now' : GoTime.Time;
  prepare_err : bool;
  exec_err : bool;
  query_err : bool;
  script_output : string;
  script_err : bool
}.

(** The mutable state of the process: the session map [userStates], the
    [transactions] table, and the messages sent so far. A
    [*TransactionState] is held by the map only, so a pointer is the key it
    is stored under and a write through it updates that entry. *)
Record World : Type := mkWorld {
  userStates : gmap Z TransactionState;
  transactions : list Transaction;
  sent : list Outbound
}.

Definition set_userStates (f : gmap Z TransactionState -> gmap Z TransactionState)
    (w : World) : World :=
  mkWorld (f (userStates w)) (transactions w) (sent w).

Definition set_Step (v : string) (s : TransactionState) : TransactionState :=
  mkState (UserID s) v (TransactionType s) (Category s) (Amount s) (Description s).
Definition set_TransactionType (v : string) (s : TransactionState) : TransactionState :=
  mkState (UserID s) (Step s) v (Category s) (Amount s) (Description s).
Definition set_Category (v : string) (s : TransactionState) : TransactionState :=
  mkState (UserID s) (Step s) (TransactionType s) v (Amount s) (Description s).
Definition set_Amount (v : float) (s : TransactionState) : TransactionState :=
  mkState (UserID s) (Step s) (TransactionType s) (Category s) v (Description s).
Definition set_Description (v : string) (s : TransactionState) : TransactionState :=
  mkState (UserID s) (Step s) (TransactionType s) (Category s) (Amount s) v.

(** [bot.Send(msg)]: the message is handed to the transport; a send error
    is only logged. *)
Definition Send (msg : Outbound) (w : World) : World :=
  mkWorld (userStates w) (transactions w) (sent w ++ [msg]).

Definition sendMessage (chatID : Z) (text : string) (w : World) : World :=
  Send (NewMessage chatID text) w.

Definition sendMessageWithKeyboard (chatID : Z) (text : string)
    (keyboard : list (list Button)) (w : World) : World :=
  Send (NewMessageWithKeyboard chatID text keyboard) w.

Definition editMessage (chatID messageID : Z) (text : string) (w : World) : World :=
  Send (NewEditMessageText chatID messageID text) w.

Definition editMessageWithKeyboard (chatID messageID : Z) (text : string)
    (keyboard : list (list Button)) (w : World) : World :=
  Send (NewEditMessageTextAndMarkup chatID messageID text keyboard) w.

(** ** SQLite, as far as the program uses it *)

(** [strftime('%m', created_at)] on a text of the layout the program
    writes, YYYY-MM-DD HH:MM:SS: its month digits. Other texts are left to
    SQLite's date parser, which is not modelled: they select no row. *)
Definition is_datetime_text (s : string) : bool :=
  match list_ascii_of_string s with
  | [y1; y2; y3; y4; d1; m1; m2; d2; a1; a2; sp; h1; h2; c1; n1; n2; c2; s1; s2] =>
      forallb GoStrconv.is_digit [y1; y2; y3; y4; m1; m2; a1; a2; h1; h2; n1; n2; s1; s2]
      && Ascii.eqb d1 "-" && Ascii.eqb d2 "-" && Ascii.eqb sp " "
      && Ascii.eqb c1 ":" && Ascii.eqb c2 ":"
  | _ => false
  end.

Definition strftime_m (created_at : string) : option string :=
  if is_datetime_text created_at then Some (substring 5 2 created_at) else None.

(** [INSERT INTO transactions (type, category, amount, description,
    created_at) VALUES (?, ?, ?, ?, ?)]. *)
Definition Exec_insert (row : Transaction) (w : World) : World :=
  mkWorld (userStates w) (transactions w ++ [row]) (sent w).

(** ** The handlers of [src/main.go] *)

Section Bot.

(** Package-level configuration, set once by [main]. *)
Variable ALLOWED_USER_ID : Z.
Variable categories : list string.

(** [strconv.ParseFloat(s, 64)]: the value and the error. *)
Variable ParseFloat : string -> float * option GoStrconv.NumError.

(** SQLite's aggregate [SUM] over the [amount]s of one group, in row
    order. *)
Variable SUM : list float -> float.

Definition startTransaction (chatID userID : Z) (w : World) : World :=
  let state := mkState userID "SELECT_TYPE" "" "" 0%float "" in
  let w := set_userStates (insert userID state) w in
  let buttons := [[("Income", "income"); ("Expense", "expense")]] in
  sendMessageWithKeyboard chatID "Please choose the type of transaction:" buttons w.

(** In the four [process*] functions [ptr] is the pointer [state] (the key
    of the entry it points to) and [state] the value read through it. *)
Definition processTransactionType (callback : CallbackQuery) (ptr : Z)
    (state : TransactionState) (w : World) : World :=
  let state := set_TransactionType (Data callback) state in
  let state := set_Step "SELECT_CATEGORY" state in
  let w := set_userStates (insert ptr state) w in
  let buttons := map (fun category : string => [(category, category)]) categories in
  editMessageWithKeyboard (cb_Chat_ID callback) (cb_MessageID callback)
    ("You selected " +:+ TransactionType state +:+ ". Choose a category:") buttons w.

Definition processCategory (callback : CallbackQuery) (ptr : Z)
    (state : TransactionState) (w : World) : World :=
  let state := set_Category (Data callback) state in
  let state := set_Step "ENTER_AMOUNT" state in
  let w := set_userStates (insert ptr state) w in
  editMessage (cb_Chat_ID callback) (cb_MessageID callback)
    ("Selected category: " +:+ Category state +:+ ". Enter the transaction amount.") w.

Definition processAmount (message : Message) (ptr : Z)
    (state : TransactionState) (w : World) : World :=
  let '(amount, err) := ParseFloat (Text message) in
  if bool_decide (err <> None) || (amount <=? 0)%float then
    sendMessage (Chat_ID message) "Invalid amount. Please enter a positive number." w
  else
    let state := set_Amount amount state in
    let state := set_Step "ENTER_DESCRIPTION" state in
    let w := set_userStates (insert ptr state) w in
    sendMessage (Chat_ID message)
      "Enter a description for the transaction (max 100 characters)." w.

Definition processDescription (env : Env) (message : Message) (ptr : Z)
    (state : TransactionState) (w : World) : World :=
  if (100 <? String.length (Text message))%nat then
    sendMessage (Chat_ID message)
      "Description too long. Please keep it under 100 characters." w
  else
    let state := set_Description (Text message) state in
    let w := set_userStates (insert ptr state) w in
    let currentTime := GoTime.In (now env) (GoTime.FixedZone "GMT+7" (7 * 60 * 60)) in
    if prepare_err env then
      sendMessage (Chat_ID message) "Failed to prepare transaction." w
    else if exec_err env then
      sendMessage (Chat_ID message) "Failed to save transaction." w
    else
      let w := Exec_insert
                 (mkTransaction (TransactionType state) (Category state) (Amount state)
                    (Description state)
                    (GoTime.Format currentTime GoTime.layout_DateTime)) w in
      let w := set_userStates (delete (UserID state)) w in
      sendMessage (Chat_ID message) "Transaction added successfully!" w.

(** [SELECT type, SUM(amount) as total FROM transactions WHERE
    strftime('%m', created_at) = ? GROUP BY type]: one row per type that
    occurs among the rows of that month.  The groups are listed here by
    first occurrence; the loop below does not depend on their order
    ([scan_groups]). *)
Definition queryMonthlyTotals (month : string) (table : list Transaction)
    : list (string * float) :=
  let selected :=
    filter (fun r => strftime_m (tx_created_at r) = Some month) table in
  map (fun t : string =>
         (t, SUM (map tx_amount (filter (fun r => tx_type r = t) selected))))
      (remove_dups (map tx_type selected)).

(** The body of the [for rows.Next()] loop.  [rows.Scan] reads a TEXT NOT
    NULL and the [SUM] of a REAL NOT NULL column into a string and a
    float64; the iteration is taken to deliver every row of the result (an
    error of it is only logged by the source). *)
Definition scanRow (totals : float * float) (row : string * float) : float * float :=
  let '(incomeTotal, expenseTotal) := totals in
  let '(transactionType, total) := row in
  if String.eqb transactionType "income" then (total, expenseTotal)
  else if String.eqb transactionType "expense" then (incomeTotal, total)
  else (incomeTotal, expenseTotal).

Definition scanRows (rows : list (string * float)) : float * float :=
  fold_left scanRow rows (0%float, 0%float).

Definition summaryMessage (header : string) (incomeTotal expenseTotal : float) : string :=
  let balance := (incomeTotal - expenseTotal)%float in
  ("Monthly Summary Report for " +:+ header +:+ ":" +:+ nl +:+ nl)
  +:+ ("Total Income: " +:+ GoFmt.Sprintf_f2 incomeTotal +:+ nl
       +:+ "Total Expense: " +:+ GoFmt.Sprintf_f2 expenseTotal +:+ nl +:+ nl
       +:+ "Balance: " +:+ GoFmt.Sprintf_f2 balance).

Definition showSummary (env : Env) (chatID : Z) (w : World) : World :=
  let currentMonth := GoTime.Format (GoTime.UTC (now env)) GoTime.layout_01 in
  if query_err env then
    sendMessage chatID "Error retrieving transactions." w
  else
    let rows := queryMonthlyTotals currentMonth (transactions w) in
    let '(incomeTotal, expenseTotal) := scanRows rows in
    sendMessage chatID
      (summaryMessage (GoTime.Format (now' env) GoTime.layout_January_2006)
         incomeTotal expenseTotal) w.

(** Both report commands run a script and relay its combined output. *)
Definition get_latest_report (env : Env) (chatID : Z) (w : World) : World :=
  if script_err env then sendMessage chatID "Failed to execute the report." w
  else sendMessage chatID (script_output env) w.

Definition get_weekly_expense_report (env : Env) (chatID : Z) (w : World) : World :=
  if script_err env then sendMessage chatID "Failed to execute the report." w
  else sendMessage chatID (script_output env) w.

Definition handleMessage (env : Env) (message : Message) (w : World) : World :=
  let userID := From_ID message in
  if negb (userID =? ALLOWED_USER_ID) then
    sendMessage (Chat_ID message) "You are not authorized to use this bot." w
  else if String.eqb (Command message) "add" then
    startTransaction (Chat_ID message) userID w
  else if String.eqb (Command message) "summary" then
    showSummary env (Chat_ID message) w
  else if String.eqb (Command message) "get_latest_report" then
    get_latest_report env (Chat_ID message) w
  else if String.eqb (Command message) "get_weekly_expense" then
    get_weekly_expense_report env (Chat_ID message) w
  else
    match userStates w !! userID with
    | Some state =>
        if String.eqb (Step state) "ENTER_AMOUNT" then
          processAmount message userID state w
        else if String.eqb (Step state) "ENTER_DESCRIPTION" then
          processDescription env message userID state w
        else w
    | None => sendMessage (Chat_ID message) "I don't understand that command." w
    end.

Definition handleCallbackQuery (callback : CallbackQuery) (w : World) : World :=
  let userID := cb_From_ID callback in
  if negb (userID =? ALLOWED_USER_ID) then
    sendMessage (cb_Chat_ID callback) "You are not authorized to use this bot." w
  else
    match userStates w !! userID with
    | None => w
    | Some state =>
        if String.eqb (Step state) "SELECT_TYPE" then
          processTransactionType callback userID state w
        else if String.eqb (Step state) "SELECT_CATEGORY" then
          processCategory callback userID state w
        else w
    end.

(** The body of the main loop. *)
Definition handleUpdate (env : Env) (update : Update) (w : World) : World :=
  match upd_Message update with
  | Some message => handleMessage env message w
  | None =>
      match upd_CallbackQuery update with
      | Some callback => handleCallbackQuery callback w
      | None => w
      end
  end.

(** The main loop over a finite prefix of the stream of updates, each
    handled in the environment it meets. *)
Definition run (events : list (Env * Update)) (w : World) : World :=
  fold_left (fun w eu => handleUpdate (fst eu) (snd eu) w) events w.

(** *** Vocabulary of the statements about the handlers *)



Section Selections.

(** Any property of the payloads delivered at SELECT_TYPE, and any of those
    delivered at SELECT_CATEGORY. *)
Variable P_type : string -> Prop.
Variable P_category : string -> Prop.

Definition state_selected (st : TransactionState) : Prop :=
  (Step st = "SELECT_CATEGORY" \/ Step st = "ENTER_AMOUNT"
   \/ Step st = "ENTER_DESCRIPTION" -> P_type (TransactionType st))
  /\ (Step st = "ENTER_AMOUNT" \/ Step st = "ENTER_DESCRIPTION" ->
      P_category (Category st)).

Definition row_selected (r : Transaction) : Prop :=
  P_type (tx_type r) /\ P_category (tx_category r).

Definition selection_inv (w : World) : Prop :=
  (forall k st, userStates w !! k = Some st -> state_selected st)
  /\ Forall row_selected (transactions w).

(** The payload of an update, if it is a callback that meets a session at
    one of the two selection steps, has the property of that step. *)
Definition payload_selected (w : World) (update : Update) : Prop :=
  match upd_Message update, upd_CallbackQuery update with
  | None, Some callback =>
      match userStates w !! cb_From_ID callback with
      | Some st =>
          (Step st = "SELECT_TYPE" -> P_type (Data callback))
          /\ (Step st = "SELECT_CATEGORY" -> P_category (Data callback))
      | None => True
      end
  | _, _ => True
  end.

Fixpoint payloads_selected (events : list (Env * Update)) (w : World) : Prop :=
  match events with
  | [] => True
  | (env, update) :: events' =>
      payload_selected w update
      /\ payloads_selected events'
           (handleUpdate env update w)
  end.

End Selections.

End Bot.

(** The state of the process when the loop starts. *)
Definition initial : World := mkWorld ∅ [] [].

(** The default category list of [main]. *)
Definition default_categories : list string :=
  ["Food"; "Salary"; "Needs"; "Water"; "Laundry";
   "Transportation"; "Utilities"; "Rent"; "Bills"].

(** ** Vocabulary of the statements *)

(** The row a commit inserts: the accumulated type, category and amount,
    the submitted description, and the commit time formatted in GMT+7. *)
Definition committed_row (env : Env) (state : TransactionState) (d : string)
    : Transaction :=
  mkTransaction (TransactionType state) (Category state) (Amount state) d
    (GoTime.Format (GoTime.In (now env) (GoTime.FixedZone "GMT+7" (7 * 60 * 60)))
       GoTime.layout_DateTime).

(** Every entry of [userStates] is stored under its own [UserID]. *)
Definition wf_sessions (w : World) : Prop :=
  forall k st, userStates w !! k = Some st -> UserID st = k.

(** SQLite's [SUM] as plain left-to-right addition: the instance used to
    run the summary on concrete tables. *)
Definition SUM_fold (l : list float) : float :=
  fold_left PrimFloat.add l 0%float.

(** [P] holds on the [fuel] integers from [x] on. *)
Fixpoint forall_from (P : Z -> bool) (fuel : nat) (x : Z) : bool :=
  match fuel with
  | O => true
  | S fuel' => if P x then forall_from P fuel' (x + 1) else false
  end.

(** Two characters, both digits. *)
Definition two_digits (s : string) : bool :=
  match s with
  | String c1 (String c2 EmptyString) => GoStrconv.is_digit c1 && GoStrconv.is_digit c2
  | _ => false
  end.

Definition four_digits (s : string) : bool :=
  match s with
  | String c1 (String c2 (String c3 (String c4 EmptyString))) =>
      GoStrconv.is_digit c1 && GoStrconv.is_digit c2
      && GoStrconv.is_digit c3 && GoStrconv.is_digit c4
  | _ => false
  end.

(** Month and day of the civil date depend on the day of the 400-year era
    only, and are a month and a day. *)
Definition month_day_in_range (doe : Z) : bool :=
  let '(_, m, d) := GoTime.civil_of_days (doe - 719468) in
  (1 <=? m) && (m <=? 12) && (1 <=? d) && (d <=? 31).

(** ** Concrete configuration and worlds for the runs *)

(** The configuration of the runs below: user 42 is the authorized one,
    the categories are the default ones, texts are parsed by
    [GoStrconv.ParseFloat] and groups are summed by [SUM_fold]. *)
Definition me : Z := 42.

Definition bot (events : list (Env * Update)) (w : World) : World :=
  run me default_categories GoStrconv.ParseFloat SUM_fold events w.

(** An environment in which the clock reads [t] seconds after the epoch
    (host zone UTC) and nothing fails. *)
Definition at_time (t : Z) : Env :=
  mkEnv (GoTime.mkTime t 0 0) (GoTime.mkTime t 0 0) false false false "" false.

(** The same, with [db.Prepare] failing. *)
Definition prepare_fails (t : Z) : Env :=
  mkEnv (GoTime.mkTime t 0 0) (GoTime.mkTime t 0 0) true false false "" false.

(** Updates from [user] in chat 7: a free text, a command, and a tap on a
    button of the message [messageID]. *)
Definition text_from (user : Z) (s : string) : Update :=
  mkUpdate (Some (mkMessage user 7 s "")) None.
Definition command_from (user : Z) (c : string) : Update :=
  mkUpdate (Some (mkMessage user 7 ("/" +:+ c) c)) None.
Definition tap_from (user : Z) (messageID : Z) (d : string) : Update :=
  mkUpdate None (Some (mkCallback user 7 messageID d)).

(** 2026-10-30 12:00:00 UTC. *)
Definition noon : Z := 1793361600.

(** The session after [/add], Expense, Food: waiting for the amount. *)
Definition at_amount : World :=
  bot [(at_time noon, command_from me "add");
       (at_time noon, tap_from me 1 "expense");
       (at_time noon, tap_from me 1 "Food")] initial.

(** ... and after the amount 12.50: waiting for the description. *)
Definition at_description : World :=
  bot [(at_time noon, text_from me "12.50")] at_amount.

(** ... and after a description that met a failing [db.Prepare]. *)
Definition after_failed_commit : World :=
  bot [(prepare_fails noon, text_from me "lunch")] at_description.

(** The number of characters (code points) of a UTF-8 text: the bytes
    that are not continuation bytes. *)
Definition is_continuation (c : ascii) : bool :=
  let n := nat_of_ascii c in (128 <=? n)%nat && (n <? 192)%nat.

Fixpoint RuneCountInString (s : string) : nat :=
  match s with
  | EmptyString => O
  | String c s' => ((if is_continuation c then 0 else 1) + RuneCountInString s')%nat
  end.

Fixpoint repeat_string (n : nat) (s : string) : string :=
  match n with
  | O => EmptyString
  | S n' => s +:+ repeat_string n' s
  end.

(** The letter e with an acute accent, in UTF-8: the bytes C3 A9. *)
Definition e_acute : string :=
  String (ascii_of_nat 195) (String (ascii_of_nat 169) EmptyString).

(** Two rows of October, and the summary asked for on 2026-10-30. *)
Definition october_table : World :=
  mkWorld ∅
    [mkTransaction "income" "Salary" 100%float "pay" "2026-10-05 09:00:00";
     mkTransaction "expense" "Food" 40%float "dinner" "2026-10-12 20:30:00"]
    [].

(** ** Startup: the configuration read by [main] *)

(** Go's [strings.Split(s, sep)] for a separator of one byte: the pieces
    of [s] between the separators, in order; a text without separator is
    its own single piece. *)
Module GoStrings.

Fixpoint Split (s : string) (sep : ascii) : list string :=
  match s with
  | EmptyString => [EmptyString]
  | String c s' =>
      if Ascii.eqb c sep then EmptyString :: Split s' sep
      else
        match Split s' sep with
        | piece :: pieces => String c piece :: pieces
        | [] => [String c EmptyString]
        end
  end.

(** How often the byte [sep] occurs in [s]. *)
Fixpoint Count (s : string) (sep : ascii) : nat :=
  match s with
  | EmptyString => O
  | String c s' => ((if Ascii.eqb c sep then 1 else 0) + Count s' sep)%nat
  end.

(** The six ASCII white-space bytes of [strings.TrimSpace]. *)
Definition asciiSpace (c : ascii) : bool :=
  let n := nat_of_ascii c in
  (n =? 9)%nat || (n =? 10)%nat || (n =? 11)%nat || (n =? 12)%nat
  || (n =? 13)%nat || (n =? 32)%nat.

Fixpoint TrimLeft_ascii (s : string) : string :=
  match s with
  | String c s' => if asciiSpace c then TrimLeft_ascii s' else s
  | EmptyString => EmptyString
  end.

Fixpoint TrimRight_ascii (s : string) : string :=
  match s with
  | EmptyString => EmptyString
  | String c s' =>
      match TrimRight_ascii s' with
      | EmptyString => if asciiSpace c then EmptyString else String c EmptyString
      | t => String c t
      end
  end.

(** [strings.TrimSpace] on a text of ASCII bytes (on other bytes Go goes
    on with the Unicode white space, which this instance does not know):
    the instance used to run [main] on concrete settings. *)
Definition TrimSpace_ascii (s : string) : string :=
  TrimRight_ascii (TrimLeft_ascii s).

End GoStrings.

(** Go's [strconv.ParseInt(s, 10, 64)] and [strconv.FormatInt(n, 10)]. *)
Module GoStrconvInt.

(** An optional sign and then digits only; a value outside int64 is
    replaced by the nearest bound and reported as [ErrRange], any other
    text gives 0 and [ErrSyntax]. *)
Definition ParseInt (s : string) : Z * option GoStrconv.NumError :=
  match s with
  | EmptyString => (0, Some GoStrconv.ErrSyntax)
  | _ =>
      let '(neg, s1) := GoStrconv.read_sign s in
      let '(un, n, rest) := GoStrconv.read_digits s1 0 0 in
      if (n =? 0) || negb (String.eqb rest "") then (0, Some GoStrconv.ErrSyntax)
      else if negb neg && (2 ^ 63 <=? un) then (2 ^ 63 - 1, Some GoStrconv.ErrRange)
      else if neg && (2 ^ 63 <? un) then (- 2 ^ 63, Some GoStrconv.ErrRange)
      else (if neg then - un else un, None)
  end.


End GoStrconvInt.




Section Main.

(** [strings.TrimSpace], [strconv.ParseFloat] and SQLite's [SUM]. *)
Variable TrimSpace : string -> string.
Variable ParseFloat : string -> float * option GoStrconv.NumError.
Variable SUM : list float -> float.

(** The category list: the comma-separated setting, each piece trimmed,
    or the nine default names when the setting is empty. *)
Definition loadCategories (catStr : string) : list string :=
  if negb (String.eqb catStr "") then
    map TrimSpace (GoStrings.Split catStr ",")
  else default_categories.




End Main.

(** ** Vocabulary of the further statements *)

(** The four commands [handleMessage] knows. *)
Definition is_known_command (c : string) : bool :=
  String.eqb c "add" || String.eqb c "summary"
  || String.eqb c "get_latest_report" || String.eqb c "get_weekly_expense".

(** The sender of the part of an update the loop looks at. *)
Definition sender (update : Update) : option Z :=
  match upd_Message update with
  | Some message => Some (From_ID message)
  | None =>
      match upd_CallbackQuery update with
      | Some callback => Some (cb_From_ID callback)
      | None => None
      end
  end.

Definition sent_by (user : Z) (event : Env * Update) : Prop :=
  sender (snd event) = Some user.

#[global] Instance sent_by_dec (user : Z) (event : Env * Update) :
  Decision (sent_by user event).
Proof. unfold sent_by. apply _. Defined.

(** The update that carries a message. *)
Definition message_update (em : Env * Message) : Env * Update :=
  (em.1, mkUpdate (Some em.2) None).

(** The four step names. *)
Definition is_step (s : string) : Prop :=
  s = "SELECT_TYPE" \/ s = "SELECT_CATEGORY" \/ s = "ENTER_AMOUNT"
  \/ s = "ENTER_DESCRIPTION".

(** A session is at one of the four steps, and once it waits for the
    description its amount has passed the guard. *)
Definition state_valid (st : TransactionState) : Prop :=
  is_step (Step st)
  /\ (Step st = "ENTER_DESCRIPTION" -> (Amount st <=? 0)%float = false).

(** A row whose amount has passed the guard and whose description has at
    most 100 bytes. *)
Definition row_valid (r : Transaction) : Prop :=
  (tx_amount r <=? 0)%float = false
  /\ (String.length (tx_description r) <= 100)%nat.

Definition dialog_inv (w : World) : Prop :=
  (forall k st, userStates w !! k = Some st -> state_valid st)
  /\ Forall row_valid (transactions w).

(** Two states of the process that differ in the messages sent only. *)
Definition same_data (w1 w2 : World) : Prop :=
  userStates w1 = userStates w2 /\ transactions w1 = transactions w2.

(** The value [scanRows] leaves for [key]: that of the last row of that
    type, or [default]. *)
Fixpoint total_of (key : string) (rows : list (string * float)) (default : float)
    : float :=
  match rows with
  | [] => default
  | (t, total) :: rows' =>
      total_of key rows' (if String.eqb t key then total else default)
  end.

(** * Properties *)

(** ** The library models on known values *)

Example Format_epoch :
  GoTime.Format (GoTime.mkTime 0 0 0) GoTime.layout_DateTime = "1970-01-01 00:00:00".
Proof. vm_compute. reflexivity. Qed.

(** 2024-02-29 23:59:59 UTC, read in GMT+7. *)
Example Format_leap_day_in_gmt7 :
  GoTime.Format
    (GoTime.In (GoTime.mkTime 1709251199 5 0) (GoTime.FixedZone "GMT+7" (7 * 60 * 60)))
    GoTime.layout_DateTime = "2024-03-01 06:59:59"
  /\ GoTime.Format (GoTime.UTC (GoTime.mkTime 1709251199 5 0)) GoTime.layout_01 = "02"
  /\ GoTime.Format (GoTime.mkTime 1709251199 5 0) GoTime.layout_January_2006
     = "February 2024".
Proof. repeat split; vm_compute; reflexivity. Qed.

Example ParseFloat_values :
  GoStrconv.ParseFloat "0.01" = (0x1.47ae147ae147bp-7%float, None)
  /\ GoStrconv.ParseFloat "12.50" = (12.5%float, None)
  /\ GoStrconv.ParseFloat "-3" = ((-3)%float, None)
  /\ GoStrconv.ParseFloat "0" = (0%float, None)
  /\ GoStrconv.ParseFloat ".5e1" = (5%float, None)
  /\ GoStrconv.ParseFloat "9007199254740993" = (9007199254740992%float, None)
  /\ GoStrconv.ParseFloat "2.2250738585072011e-308" = (0x0.fffffffffffffp-1022%float, None)
  /\ GoStrconv.ParseFloat "1e-400" = (0%float, None).
Proof. repeat split; vm_compute; reflexivity. Qed.

Example ParseFloat_special_and_errors :
  GoStrconv.ParseFloat "NaN" = (nan, None)
  /\ GoStrconv.ParseFloat "nan" = (nan, None)
  /\ GoStrconv.ParseFloat "Inf" = (infinity, None)
  /\ GoStrconv.ParseFloat "-Infinity" = (neg_infinity, None)
  /\ GoStrconv.ParseFloat "1e400" = (infinity, Some GoStrconv.ErrRange)
  /\ GoStrconv.ParseFloat "" = (0%float, Some GoStrconv.ErrSyntax)
  /\ GoStrconv.ParseFloat "12,50" = (0%float, Some GoStrconv.ErrSyntax)
  /\ GoStrconv.ParseFloat "ten" = (0%float, Some GoStrconv.ErrSyntax).
Proof. repeat split; vm_compute; reflexivity. Qed.

Example Sprintf_f2_values :
  GoFmt.Sprintf_f2 100%float = "100.00"
  /\ GoFmt.Sprintf_f2 12.5%float = "12.50"
  /\ GoFmt.Sprintf_f2 0.125%float = "0.12"
  /\ GoFmt.Sprintf_f2 0.375%float = "0.38"
  /\ GoFmt.Sprintf_f2 0x1.5666666666666p+1%float = "2.67"
  /\ GoFmt.Sprintf_f2 (-0.5)%float = "-0.50"
  /\ GoFmt.Sprintf_f2 1e22%float = "10000000000000000000000.00"
  /\ GoFmt.Sprintf_f2 infinity = "+Inf"
  /\ GoFmt.Sprintf_f2 nan = "NaN".
Proof. repeat split; vm_compute; reflexivity. Qed.

(** ** Floats: the comparison [amount <= 0] *)

Lemma Prim2SF_zero : Prim2SF 0%float = S754_zero false.
Proof. reflexivity. Qed.

(** A float that is greater than zero is not at most zero. *)
Lemma positive_not_leb_zero (a : float) :
  (0 <? a)%float = true -> (a <=? 0)%float = false.
Proof.
  rewrite ltb_spec, leb_spec, Prim2SF_zero.
  destruct (Prim2SF a) as [s|s| |s m e]; try destruct s; cbn; congruence.
Qed.

(** NaN compares false with everything, so the guard [amount <= 0] lets it
    through. *)
Lemma nan_not_leb_zero (a : float) :
  is_nan a = true -> (a <=? 0)%float = false /\ (0 <? a)%float = false.
Proof.
  unfold is_nan. rewrite FloatAxioms.eqb_spec, ltb_spec, leb_spec, Prim2SF_zero.
  destruct (Prim2SF a) as [s|s| |s m e]; try destruct s; cbn;
    try (rewrite Z.compare_refl, Pos.compare_refl; cbn); try congruence; auto.
Qed.

(** Every float is greater than zero, at most zero, or NaN. *)
Lemma float_sign_cases (a : float) :
  (0 <? a)%float = true \/ (a <=? 0)%float = true \/ is_nan a = true.
Proof.
  unfold is_nan. rewrite FloatAxioms.eqb_spec, ltb_spec, leb_spec, Prim2SF_zero.
  destruct (Prim2SF a) as [s|s| |s m e]; try destruct s; cbn; auto.
Qed.

(** ** Calendar and digits: the shape of a formatted time *)

Lemma forall_from_spec (P : Z -> bool) (fuel : nat) :
  forall x, forall_from P fuel x = true ->
  forall y, x <= y < x + Z.of_nat fuel -> P y = true.
Proof.
  induction fuel as [| fuel IH]; intros x H y Hy.
  - lia.
  - cbn [forall_from] in H. destruct (P x) eqn:E; [| discriminate].
    destruct (Z.eq_dec y x) as [-> | Hne]; [exact E |].
    apply (IH (x + 1) H). lia.
Qed.

Lemma forall_range (P : Z -> bool) (n : Z) :
  forall_from P (Z.to_nat n) 0 = true ->
  forall y, 0 <= y < n -> P y = true.
Proof.
  intros H y Hy. apply (forall_from_spec P (Z.to_nat n) 0 H). lia.
Qed.

Lemma appendInt_two_digits (x : Z) :
  0 <= x < 100 -> two_digits (GoTime.appendInt x 2) = true.
Proof.
  intros H.
  apply (forall_range (fun x => two_digits (GoTime.appendInt x 2)) 100);
    [vm_compute; reflexivity | lia].
Qed.

Lemma appendInt_four_digits (x : Z) :
  0 <= x <= 9999 -> four_digits (GoTime.appendInt x 4) = true.
Proof.
  intros H.
  apply (forall_range (fun x => four_digits (GoTime.appendInt x 4)) 10000);
    [vm_compute; reflexivity | lia].
Qed.

Lemma civil_of_days_era (z : Z) :
  snd (fst (GoTime.civil_of_days z)) =
    snd (fst (GoTime.civil_of_days ((z + 719468) mod 146097 - 719468)))
  /\ snd (GoTime.civil_of_days z) =
    snd (GoTime.civil_of_days ((z + 719468) mod 146097 - 719468)).
Proof.
  unfold GoTime.civil_of_days.
  replace ((z + 719468) mod 146097 - 719468 + 719468) with ((z + 719468) mod 146097) by lia.
  rewrite Z.mod_mod by lia. cbn [fst snd]. split; reflexivity.
Qed.

Lemma civil_of_days_range (z : Z) :
  1 <= snd (fst (GoTime.civil_of_days z)) <= 12
  /\ 1 <= snd (GoTime.civil_of_days z) <= 31.
Proof.
  destruct (civil_of_days_era z) as [-> ->].
  assert (Hr : 0 <= (z + 719468) mod 146097 < 146097)
    by (apply Z.mod_pos_bound; lia).
  pose proof (forall_range month_day_in_range 146097 ltac:(vm_compute; reflexivity)
                _ Hr) as H.
  unfold month_day_in_range in H.
  destruct (GoTime.civil_of_days ((z + 719468) mod 146097 - 719468)) as [[y m] d].
  cbn [fst snd]. lia.
Qed.

Lemma clock_range (t : GoTime.Time) :
  0 <= GoTime.Hour t < 100 /\ 0 <= GoTime.Minute t < 100 /\ 0 <= GoTime.Second t < 100.
Proof.
  unfold GoTime.Hour, GoTime.Minute, GoTime.Second.
  pose proof (Z.mod_pos_bound (GoTime.abs t) 86400).
  pose proof (Z.mod_pos_bound (GoTime.abs t) 3600).
  pose proof (Z.mod_pos_bound (GoTime.abs t) 60).
  repeat split; try lia.
  - apply Z.div_pos; lia.
  - apply Z.div_lt_upper_bound; lia.
  - apply Z.div_pos; lia.
  - apply Z.div_lt_upper_bound; lia.
Qed.

(** A time whose year has four digits formats, under the layout
    2006-01-02 15:04:05, to nineteen characters: digits, separated as the
    layout says, with nothing after the seconds; and the month SQLite reads
    in that text is the month of the time. *)
Lemma Format_DateTime_month (t : GoTime.Time) :
  0 <= GoTime.Year t <= 9999 ->
  is_datetime_text (GoTime.Format t GoTime.layout_DateTime) = true
  /\ strftime_m (GoTime.Format t GoTime.layout_DateTime) =
     Some (GoTime.Format t GoTime.layout_01).
Proof.
  intros Hy.
  pose proof (appendInt_four_digits _ Hy) as H1.
  destruct (civil_of_days_range (GoTime.abs t / 86400)) as [Hm Hd].
  destruct (clock_range t) as (Hh & Hmi & Hs).
  pose proof (appendInt_two_digits (GoTime.Month t) ltac:(unfold GoTime.Month; lia)) as H2.
  pose proof (appendInt_two_digits (GoTime.Day t) ltac:(unfold GoTime.Day; lia)) as H3.
  pose proof (appendInt_two_digits _ Hh) as H4.
  pose proof (appendInt_two_digits _ Hmi) as H5.
  pose proof (appendInt_two_digits _ Hs) as H6.
  unfold strftime_m, GoTime.Format, GoTime.layout_DateTime, GoTime.layout_01.
  cbn [fold_right GoTime.formatChunk].
  destruct (GoTime.appendInt (GoTime.Year t) 4)
    as [| y1 [| y2 [| y3 [| y4 [| ? ?]]]]]; try discriminate.
  destruct (GoTime.appendInt (GoTime.Month t) 2) as [| m1 [| m2 [| ? ?]]]; try discriminate.
  destruct (GoTime.appendInt (GoTime.Day t) 2) as [| d1 [| d2 [| ? ?]]]; try discriminate.
  destruct (GoTime.appendInt (GoTime.Hour t) 2) as [| h1 [| h2 [| ? ?]]]; try discriminate.
  destruct (GoTime.appendInt (GoTime.Minute t) 2) as [| n1 [| n2 [| ? ?]]]; try discriminate.
  destruct (GoTime.appendInt (GoTime.Second t) 2) as [| s1 [| s2 [| ? ?]]]; try discriminate.
  cbn [two_digits four_digits] in *.
  repeat match goal with
         | H : _ && _ = true |- _ => apply andb_prop in H; destruct H
         end.
  unfold is_datetime_text. cbv -[GoStrconv.is_digit].
  repeat match goal with
         | H : GoStrconv.is_digit _ = true |- _ => rewrite H; clear H
         end.
  split; reflexivity.
Qed.

Lemma Format_DateTime_shape (t : GoTime.Time) :
  0 <= GoTime.Year t <= 9999 ->
  is_datetime_text (GoTime.Format t GoTime.layout_DateTime) = true.
Proof. intros H. exact (proj1 (Format_DateTime_month t H)). Qed.

(** ** Two decimals: what [%.2f] prints *)







(** ** The handlers *)

Set Default Proof Using "Type".

Section BotFacts.

Variable ALLOWED_USER_ID : Z.
Variable categories : list string.
Variable ParseFloat : string -> float * option GoStrconv.NumError.
Variable SUM : list float -> float.


(** *** Sending never touches sessions or the table *)

Lemma userStates_Send msg w : userStates (Send msg w) = userStates w.
Proof. reflexivity. Qed.

Lemma transactions_Send msg w : transactions (Send msg w) = transactions w.
Proof. reflexivity. Qed.

Lemma sent_Send msg w : sent (Send msg w) = sent w ++ [msg].
Proof. reflexivity. Qed.

(** *** [processAmount] *)

Lemma processAmount_accepted message ptr state w a :
  ParseFloat (Text message) = (a, None) ->
  (0 <? a)%float = true ->
  processAmount ParseFloat message ptr state w =
  sendMessage (Chat_ID message)
    "Enter a description for the transaction (max 100 characters)."
    (set_userStates (insert ptr (set_Step "ENTER_DESCRIPTION" (set_Amount a state))) w).
Proof.
  intros Hp Hpos. unfold processAmount. rewrite Hp.
  rewrite (positive_not_leb_zero a Hpos). reflexivity.
Qed.

Lemma processAmount_rejected message ptr state w a err :
  ParseFloat (Text message) = (a, err) ->
  err <> None \/ (a <=? 0)%float = true ->
  processAmount ParseFloat message ptr state w =
  sendMessage (Chat_ID message) "Invalid amount. Please enter a positive number." w.
Proof.
  intros Hp H. unfold processAmount. rewrite Hp.
  destruct H as [H | H].
  - rewrite (bool_decide_eq_true_2 _ H). reflexivity.
  - rewrite H, orb_true_r. reflexivity.
Qed.

(** The guard is [amount <= 0], not the negation of [amount > 0]: a parsed
    NaN passes it. *)
Lemma processAmount_nan message ptr state w a :
  ParseFloat (Text message) = (a, None) ->
  is_nan a = true ->
  processAmount ParseFloat message ptr state w =
  sendMessage (Chat_ID message)
    "Enter a description for the transaction (max 100 characters)."
    (set_userStates (insert ptr (set_Step "ENTER_DESCRIPTION" (set_Amount a state))) w).
Proof.
  intros Hp Hn. unfold processAmount. rewrite Hp.
  destruct (nan_not_leb_zero a Hn) as [-> _]. reflexivity.
Qed.

(** *** Routing *)

Lemma handleMessage_unauthorized env message w :
  From_ID message <> ALLOWED_USER_ID ->
  handleMessage ALLOWED_USER_ID ParseFloat SUM env message w =
  sendMessage (Chat_ID message) "You are not authorized to use this bot." w.
Proof.
  intros H. unfold handleMessage.
  destruct (Z.eqb_spec (From_ID message) ALLOWED_USER_ID); [contradiction | reflexivity].
Qed.

Lemma handleCallbackQuery_unauthorized callback w :
  cb_From_ID callback <> ALLOWED_USER_ID ->
  handleCallbackQuery ALLOWED_USER_ID categories callback w =
  sendMessage (cb_Chat_ID callback) "You are not authorized to use this bot." w.
Proof.
  intros H. unfold handleCallbackQuery.
  destruct (Z.eqb_spec (cb_From_ID callback) ALLOWED_USER_ID); [contradiction | reflexivity].
Qed.

(** A message of the authorized user that is none of the four commands
    reaches the dialog switch. *)
Lemma handleMessage_dialog env message w :
  From_ID message = ALLOWED_USER_ID ->
  Command message = "" ->
  handleMessage ALLOWED_USER_ID ParseFloat SUM env message w =
  match userStates w !! ALLOWED_USER_ID with
  | Some state =>
      if String.eqb (Step state) "ENTER_AMOUNT" then
        processAmount ParseFloat message ALLOWED_USER_ID state w
      else if String.eqb (Step state) "ENTER_DESCRIPTION" then
        processDescription env message ALLOWED_USER_ID state w
      else w
  | None => sendMessage (Chat_ID message) "I don't understand that command." w
  end.
Proof.
  intros Hu Hc. unfold handleMessage. rewrite Hu, Hc, Z.eqb_refl. reflexivity.
Qed.

Lemma handleCallbackQuery_dialog callback w :
  cb_From_ID callback = ALLOWED_USER_ID ->
  handleCallbackQuery ALLOWED_USER_ID categories callback w =
  match userStates w !! ALLOWED_USER_ID with
  | None => w
  | Some state =>
      if String.eqb (Step state) "SELECT_TYPE" then
        processTransactionType categories callback ALLOWED_USER_ID state w
      else if String.eqb (Step state) "SELECT_CATEGORY" then
        processCategory callback ALLOWED_USER_ID state w
      else w
  end.
Proof.
  intros Hu. unfold handleCallbackQuery. rewrite Hu, Z.eqb_refl. reflexivity.
Qed.

(** *** Unauthorized senders *)

(** C4. An event whose sender is not the authorized user, whatever its kind
    (command, free text or selection callback) and whatever step any dialog
    is in, is answered with the rejection message and leaves the session
    map as it was: no entry is created and none is changed. *)
Theorem unauthorized_rejected_sessions_unchanged :
  (forall env message w,
      From_ID message <> ALLOWED_USER_ID ->
      userStates (handleMessage ALLOWED_USER_ID ParseFloat SUM env message w) = userStates w
      /\ transactions (handleMessage ALLOWED_USER_ID ParseFloat SUM env message w) = transactions w
      /\ sent (handleMessage ALLOWED_USER_ID ParseFloat SUM env message w) =
         sent w ++ [NewMessage (Chat_ID message) "You are not authorized to use this bot."])
  /\ (forall callback w,
      cb_From_ID callback <> ALLOWED_USER_ID ->
      userStates (handleCallbackQuery ALLOWED_USER_ID categories callback w) = userStates w
      /\ transactions (handleCallbackQuery ALLOWED_USER_ID categories callback w) = transactions w
      /\ sent (handleCallbackQuery ALLOWED_USER_ID categories callback w) =
         sent w ++ [NewMessage (cb_Chat_ID callback) "You are not authorized to use this bot."]).
Proof.
  split.
  - intros env message w H. rewrite handleMessage_unauthorized by assumption. auto.
  - intros callback w H. rewrite handleCallbackQuery_unauthorized by assumption. auto.
Qed.

(** *** [/add] *)

(** C5. Whatever the session map holds, the command [/add] of the
    authorized user installs for that user a fresh state at SELECT_TYPE
    with empty type, category and description and amount zero, in place of
    any state the user had; the other entries are kept. *)
Theorem add_installs_fresh_state :
  forall env message w,
    From_ID message = ALLOWED_USER_ID ->
    Command message = "add" ->
    userStates (handleMessage ALLOWED_USER_ID ParseFloat SUM env message w) =
      <[ALLOWED_USER_ID := mkState ALLOWED_USER_ID "SELECT_TYPE" "" "" 0%float ""]>
        (userStates w)
    /\ userStates (handleMessage ALLOWED_USER_ID ParseFloat SUM env message w) !! ALLOWED_USER_ID =
       Some (mkState ALLOWED_USER_ID "SELECT_TYPE" "" "" 0%float "").
Proof.
  intros env message w Hu Hc.
  assert (E : userStates (handleMessage ALLOWED_USER_ID ParseFloat SUM env message w) =
              <[ALLOWED_USER_ID := mkState ALLOWED_USER_ID "SELECT_TYPE" "" "" 0%float ""]>
                (userStates w)).
  { unfold handleMessage. rewrite Hu, Hc, Z.eqb_refl. reflexivity. }
  split; [exact E |]. rewrite E. apply lookup_insert_eq.
Qed.

(** *** Events of the wrong kind for the step *)

(** C8. For the authorized user, a selection callback that arrives while
    the step is ENTER_AMOUNT or ENTER_DESCRIPTION, and a free-text message
    (no command) that arrives while the step is SELECT_TYPE or
    SELECT_CATEGORY, change nothing: the state of the process afterwards is
    the one before. *)
Theorem wrong_kind_event_is_noop :
  (forall callback w state,
      cb_From_ID callback = ALLOWED_USER_ID ->
      userStates w !! ALLOWED_USER_ID = Some state ->
      Step state = "ENTER_AMOUNT" \/ Step state = "ENTER_DESCRIPTION" ->
      handleCallbackQuery ALLOWED_USER_ID categories callback w = w)
  /\ (forall env message w state,
      From_ID message = ALLOWED_USER_ID ->
      Command message = "" ->
      userStates w !! ALLOWED_USER_ID = Some state ->
      Step state = "SELECT_TYPE" \/ Step state = "SELECT_CATEGORY" ->
      handleMessage ALLOWED_USER_ID ParseFloat SUM env message w = w).
Proof.
  split.
  - intros callback w state Hu Hs Hstep.
    rewrite handleCallbackQuery_dialog by assumption. rewrite Hs.
    destruct Hstep as [-> | ->]; reflexivity.
  - intros env message w state Hu Hc Hs Hstep.
    rewrite handleMessage_dialog by assumption. rewrite Hs.
    destruct Hstep as [-> | ->]; reflexivity.
Qed.

(** *** [processDescription] *)

Lemma processDescription_too_long env message ptr state w :
  (100 < String.length (Text message))%nat ->
  processDescription env message ptr state w =
  sendMessage (Chat_ID message)
    "Description too long. Please keep it under 100 characters." w.
Proof.
  intros H. unfold processDescription.
  destruct (Nat.ltb_spec 100 (String.length (Text message))); [reflexivity | lia].
Qed.

Lemma processDescription_commit env message ptr state w :
  (String.length (Text message) <= 100)%nat ->
  prepare_err env = false ->
  exec_err env = false ->
  processDescription env message ptr state w =
  sendMessage (Chat_ID message) "Transaction added successfully!"
    (set_userStates (delete (UserID state))
       (Exec_insert (committed_row env state (Text message))
          (set_userStates (insert ptr (set_Description (Text message) state)) w))).
Proof.
  intros H Hp He. unfold processDescription.
  destruct (Nat.ltb_spec 100 (String.length (Text message))); [lia |].
  rewrite Hp, He. reflexivity.
Qed.

Lemma processDescription_failure env message ptr state w :
  (String.length (Text message) <= 100)%nat ->
  prepare_err env = true \/ exec_err env = true ->
  processDescription env message ptr state w =
  sendMessage (Chat_ID message)
    (if prepare_err env then "Failed to prepare transaction."
     else "Failed to save transaction.")
    (set_userStates (insert ptr (set_Description (Text message) state)) w).
Proof.
  intros H Hf. unfold processDescription.
  destruct (Nat.ltb_spec 100 (String.length (Text message))); [lia |].
  destruct (prepare_err env); [reflexivity |].
  destruct Hf as [Hf | Hf]; [discriminate |]. rewrite Hf. reflexivity.
Qed.

(** A description of at most 100 bytes, submitted at ENTER_DESCRIPTION while
    the store accepts the write, appends one row with the accumulated
    fields and removes the user's session; one of more than 100 bytes is
    refused and changes neither sessions nor table. *)
Lemma description_by_byte_length env message w state :
  From_ID message = ALLOWED_USER_ID ->
  Command message = "" ->
  userStates w !! ALLOWED_USER_ID = Some state ->
  Step state = "ENTER_DESCRIPTION" ->
  UserID state = ALLOWED_USER_ID ->
  ((String.length (Text message) <= 100)%nat ->
   prepare_err env = false -> exec_err env = false ->
   transactions (handleMessage ALLOWED_USER_ID ParseFloat SUM env message w) =
     transactions w ++ [committed_row env state (Text message)]
   /\ userStates (handleMessage ALLOWED_USER_ID ParseFloat SUM env message w) =
     delete ALLOWED_USER_ID (userStates w))
  /\ ((100 < String.length (Text message))%nat ->
      transactions (handleMessage ALLOWED_USER_ID ParseFloat SUM env message w) =
        transactions w
      /\ userStates (handleMessage ALLOWED_USER_ID ParseFloat SUM env message w) =
        userStates w).
Proof.
  intros Hu Hc Hs Hstep Hid.
  rewrite handleMessage_dialog by assumption. rewrite Hs, Hstep. cbn [String.eqb].
  change (("ENTER_DESCRIPTION" =? "ENTER_AMOUNT")%string) with false.
  change (("ENTER_DESCRIPTION" =? "ENTER_DESCRIPTION")%string) with true.
  cbv iota. split.
  - intros Hl Hp He. rewrite processDescription_commit by assumption.
    split; [reflexivity |]. cbn. rewrite Hid. apply delete_insert_eq.
  - intros Hl. rewrite processDescription_too_long by assumption. split; reflexivity.
Qed.

(** C6 (as amended). When the store write of a commit fails (at
    [db.Prepare] or at [stmt.Exec]), the user is sent a generic failure
    message, nothing is appended to the table, and the session is kept: its
    step, type, category and amount are as before, and its description now
    holds the submitted text.  A description submitted afterwards, when the
    store accepts the write, commits the transaction with the kept fields
    and removes the session. *)
Theorem commit_failure_keeps_session :
  forall env message w state,
    From_ID message = ALLOWED_USER_ID ->
    Command message = "" ->
    userStates w !! ALLOWED_USER_ID = Some state ->
    Step state = "ENTER_DESCRIPTION" ->
    UserID state = ALLOWED_USER_ID ->
    (String.length (Text message) <= 100)%nat ->
    prepare_err env = true \/ exec_err env = true ->
    let w' := handleMessage ALLOWED_USER_ID ParseFloat SUM env message w in
    sent w' = sent w ++
              [NewMessage (Chat_ID message)
                 (if prepare_err env then "Failed to prepare transaction."
                  else "Failed to save transaction.")]
    /\ transactions w' = transactions w
    /\ userStates w' =
       <[ALLOWED_USER_ID := set_Description (Text message) state]> (userStates w)
    /\ (exists state', userStates w' !! ALLOWED_USER_ID = Some state'
          /\ Step state' = Step state
          /\ TransactionType state' = TransactionType state
          /\ Category state' = Category state
          /\ Amount state' = Amount state
          /\ UserID state' = UserID state
          /\ Description state' = Text message)
    /\ (forall env2 message2,
          From_ID message2 = ALLOWED_USER_ID ->
          Command message2 = "" ->
          (String.length (Text message2) <= 100)%nat ->
          prepare_err env2 = false -> exec_err env2 = false ->
          transactions (handleMessage ALLOWED_USER_ID ParseFloat SUM env2 message2 w') =
            transactions w ++ [committed_row env2 state (Text message2)]
          /\ userStates (handleMessage ALLOWED_USER_ID ParseFloat SUM env2 message2 w')
               !! ALLOWED_USER_ID = None).
Proof.
  intros env message w state Hu Hc Hs Hstep Hid Hl Hf w'.
  assert (E : w' = sendMessage (Chat_ID message)
                     (if prepare_err env then "Failed to prepare transaction."
                      else "Failed to save transaction.")
                     (set_userStates
                        (insert ALLOWED_USER_ID (set_Description (Text message) state)) w)).
  { subst w'. rewrite handleMessage_dialog by assumption. rewrite Hs, Hstep.
    change (("ENTER_DESCRIPTION" =? "ENTER_AMOUNT")%string) with false.
    change (("ENTER_DESCRIPTION" =? "ENTER_DESCRIPTION")%string) with true.
    cbv iota. apply processDescription_failure; assumption. }
  assert (L : userStates w' !! ALLOWED_USER_ID = Some (set_Description (Text message) state)).
  { rewrite E. cbn. apply lookup_insert_eq. }
  split; [rewrite E; reflexivity |].
  split; [rewrite E; reflexivity |].
  split; [rewrite E; reflexivity |].
  split.
  - exists (set_Description (Text message) state). repeat split; assumption || reflexivity.
  - intros env2 message2 Hu2 Hc2 Hl2 Hp2 He2.
    destruct (description_by_byte_length env2 message2 w' _ Hu2 Hc2 L Hstep Hid)
      as [Hcommit _].
    destruct (Hcommit Hl2 Hp2 He2) as [Ht Hm]. split.
    + rewrite Ht. rewrite E. reflexivity.
    + rewrite Hm. apply lookup_delete_eq.
Qed.

(** *** What an update can do to the table *)

Lemma formatChunk_abs t1 t2 c :
  GoTime.abs t1 = GoTime.abs t2 -> GoTime.formatChunk t1 c = GoTime.formatChunk t2 c.
Proof.
  intros H.
  destruct c; cbn [GoTime.formatChunk];
    unfold GoTime.Year, GoTime.Month, GoTime.Day, GoTime.Hour, GoTime.Minute,
      GoTime.Second; rewrite ?H; reflexivity.
Qed.

(** [Format] reads a time through its civil clock only: the nanoseconds
    play no part, and neither does the zone once the offset is added. *)
Lemma Format_abs t1 t2 layout :
  GoTime.abs t1 = GoTime.abs t2 -> GoTime.Format t1 layout = GoTime.Format t2 layout.
Proof.
  intros H. unfold GoTime.Format.
  induction layout as [| c layout IH]; cbn [fold_right]; [reflexivity |].
  rewrite IH, (formatChunk_abs t1 t2 c H). reflexivity.
Qed.

Lemma transactions_processAmount message ptr state w :
  transactions (processAmount ParseFloat message ptr state w) = transactions w.
Proof.
  unfold processAmount. destruct (ParseFloat (Text message)) as [amount err].
  destruct (bool_decide (err <> None) || (amount <=? 0)%float); reflexivity.
Qed.

Lemma transactions_processDescription env message ptr state w :
  transactions (processDescription env message ptr state w) = transactions w
  \/ transactions (processDescription env message ptr state w) =
     transactions w ++ [committed_row env state (Text message)].
Proof.
  unfold processDescription.
  destruct (100 <? String.length (Text message))%nat; [left; reflexivity |].
  destruct (prepare_err env); [left; reflexivity |].
  destruct (exec_err env); [left; reflexivity |].
  right; reflexivity.
Qed.

Lemma transactions_showSummary env chatID w :
  transactions (showSummary SUM env chatID w) = transactions w.
Proof.
  unfold showSummary. destruct (query_err env); [reflexivity |].
  destruct (scanRows _); reflexivity.
Qed.

Lemma transactions_handleCallbackQuery callback w :
  transactions (handleCallbackQuery ALLOWED_USER_ID categories callback w) = transactions w.
Proof.
  unfold handleCallbackQuery.
  destruct (negb _); [reflexivity |].
  destruct (userStates w !! cb_From_ID callback) as [state |]; [| reflexivity].
  destruct (String.eqb (Step state) "SELECT_TYPE"); [reflexivity |].
  destruct (String.eqb (Step state) "SELECT_CATEGORY"); reflexivity.
Qed.

Lemma transactions_handleMessage env message w :
  transactions (handleMessage ALLOWED_USER_ID ParseFloat SUM env message w) = transactions w
  \/ exists state,
      userStates w !! From_ID message = Some state
      /\ transactions (handleMessage ALLOWED_USER_ID ParseFloat SUM env message w) =
         transactions w ++ [committed_row env state (Text message)].
Proof.
  unfold handleMessage.
  destruct (negb _); [left; reflexivity |].
  destruct (String.eqb (Command message) "add"); [left; reflexivity |].
  destruct (String.eqb (Command message) "summary");
    [left; apply transactions_showSummary |].
  destruct (String.eqb (Command message) "get_latest_report").
  { left. unfold get_latest_report. destruct (script_err env); reflexivity. }
  destruct (String.eqb (Command message) "get_weekly_expense").
  { left. unfold get_weekly_expense_report. destruct (script_err env); reflexivity. }
  destruct (userStates w !! From_ID message) as [state |] eqn:E; [| left; reflexivity].
  destruct (String.eqb (Step state) "ENTER_AMOUNT");
    [left; apply transactions_processAmount |].
  destruct (String.eqb (Step state) "ENTER_DESCRIPTION"); [| left; reflexivity].
  destruct (transactions_processDescription env message (From_ID message) state w)
    as [H | H]; [left; exact H | right; exists state; split; [reflexivity | exact H]].
Qed.


(** *** The monthly summary *)












(** *** What a dialog records of the selection payloads *)

Section SelectionFacts.

(** Any property of the payloads delivered at SELECT_TYPE, and any of those
    delivered at SELECT_CATEGORY. *)
Variable P_type : string -> Prop.
Variable P_category : string -> Prop.

Lemma selection_inv_Send msg w :
  selection_inv P_type P_category w -> selection_inv P_type P_category (Send msg w).
Proof. intros H. exact H. Qed.

Lemma selection_inv_insert k st w :
  selection_inv P_type P_category w -> state_selected P_type P_category st ->
  selection_inv P_type P_category (set_userStates (insert k st) w).
Proof.
  intros [Hs Hr] Hst. split; [| exact Hr].
  intros k' st'. cbn. rewrite lookup_insert.
  destruct (decide (k = k')); [intros [= <-]; exact Hst | apply Hs].
Qed.

Lemma selection_inv_delete k w :
  selection_inv P_type P_category w ->
  selection_inv P_type P_category (set_userStates (delete k) w).
Proof.
  intros [Hs Hr]. split; [| exact Hr].
  intros k' st'. cbn. rewrite lookup_delete.
  destruct (decide (k = k')); [discriminate | apply Hs].
Qed.

Lemma selection_inv_handleMessage env message w :
  selection_inv P_type P_category w ->
  selection_inv P_type P_category (handleMessage ALLOWED_USER_ID ParseFloat SUM env message w).
Proof.
  intros Hinv. unfold handleMessage.
  destruct (negb _); [apply selection_inv_Send; exact Hinv |].
  destruct (String.eqb (Command message) "add").
  { apply selection_inv_Send, selection_inv_insert; [exact Hinv |].
    split; cbn; intros H; repeat destruct H as [H | H]; discriminate. }
  destruct (String.eqb (Command message) "summary").
  { unfold showSummary. destruct (query_err env); [exact Hinv |].
    destruct (scanRows _). exact Hinv. }
  destruct (String.eqb (Command message) "get_latest_report").
  { unfold get_latest_report. destruct (script_err env); exact Hinv. }
  destruct (String.eqb (Command message) "get_weekly_expense").
  { unfold get_weekly_expense_report. destruct (script_err env); exact Hinv. }
  destruct (userStates w !! From_ID message) as [state |] eqn:E; [| exact Hinv].
  pose proof (proj1 Hinv _ _ E) as [Hty Hcat].
  destruct (String.eqb_spec (Step state) "ENTER_AMOUNT") as [Hstep | _].
  { unfold processAmount. destruct (ParseFloat (Text message)) as [amount err].
    destruct (bool_decide (err <> None) || (amount <=? 0)%float); [exact Hinv |].
    apply selection_inv_Send, selection_inv_insert; [exact Hinv |].
    split; cbn; intros _; [apply Hty | apply Hcat]; auto. }
  destruct (String.eqb_spec (Step state) "ENTER_DESCRIPTION") as [Hstep | _];
    [| exact Hinv].
  unfold processDescription.
  destruct (100 <? String.length (Text message))%nat; [exact Hinv |].
  assert (Hst : state_selected P_type P_category (set_Description (Text message) state))
    by (split; cbn; intros _; [apply Hty | apply Hcat]; auto).
  pose proof (selection_inv_insert (From_ID message) _ w Hinv Hst) as Hinv'.
  destruct (prepare_err env); [exact Hinv' |].
  destruct (exec_err env); [exact Hinv' |].
  apply selection_inv_Send, selection_inv_delete.
  destruct Hinv' as [Hs Hr]. split; [exact Hs |].
  cbn. apply Forall_app. split; [exact Hr |].
  constructor; [| constructor]. split; cbn; [apply Hty | apply Hcat]; auto.
Qed.

Lemma selection_inv_handleCallbackQuery callback w :
  selection_inv P_type P_category w ->
  payload_selected P_type P_category w (mkUpdate None (Some callback)) ->
  selection_inv P_type P_category
    (handleCallbackQuery ALLOWED_USER_ID categories callback w).
Proof.
  intros Hinv Hpay. unfold handleCallbackQuery.
  destruct (negb _); [exact Hinv |].
  unfold payload_selected in Hpay. cbn in Hpay.
  destruct (userStates w !! cb_From_ID callback) as [state |] eqn:E; [| exact Hinv].
  destruct Hpay as [Hpt Hpc].
  pose proof (proj1 Hinv _ _ E) as [Hty Hcat].
  destruct (String.eqb_spec (Step state) "SELECT_TYPE") as [Hstep | _].
  { apply selection_inv_Send, selection_inv_insert; [exact Hinv |].
    split; cbn; intros H; [apply Hpt; exact Hstep |].
    destruct H as [H | H]; discriminate. }
  destruct (String.eqb_spec (Step state) "SELECT_CATEGORY") as [Hstep | _];
    [| exact Hinv].
  apply selection_inv_Send, selection_inv_insert; [exact Hinv |].
  split; cbn; intros _; [apply Hty; auto | apply Hpc; exact Hstep].
Qed.

Lemma selection_inv_handleUpdate env update w :
  selection_inv P_type P_category w ->
  payload_selected P_type P_category w update ->
  selection_inv P_type P_category
    (handleUpdate ALLOWED_USER_ID categories ParseFloat SUM env update w).
Proof.
  intros Hinv Hpay. unfold handleUpdate. destruct update as [[message |] [callback |]];
    cbn [upd_Message upd_CallbackQuery].
  - apply selection_inv_handleMessage; exact Hinv.
  - apply selection_inv_handleMessage; exact Hinv.
  - apply selection_inv_handleCallbackQuery; assumption.
  - exact Hinv.
Qed.

Lemma selection_inv_run events :
  forall w,
    selection_inv P_type P_category w ->
    payloads_selected ALLOWED_USER_ID categories ParseFloat SUM P_type P_category
      events w ->
    selection_inv P_type P_category (run ALLOWED_USER_ID categories ParseFloat SUM events w).
Proof.
  induction events as [| [env update] events IH]; intros w Hinv Hpay.
  - exact Hinv.
  - destruct Hpay as [Hp Hrest]. cbn [run fold_left fst snd].
    apply IH; [apply selection_inv_handleUpdate; assumption | exact Hrest].
Qed.

End SelectionFacts.

(** C2 (as amended). The category step records the payload of the callback
    as it is, without comparing it with the configured names; and in a run
    in which every payload delivered at SELECT_TYPE is income or expense
    and every payload delivered at SELECT_CATEGORY is a configured category
    name, every persisted row has its type among income and expense and its
    category among the configured names. *)
Theorem persisted_selection_is_payload :
  (forall callback w state,
      cb_From_ID callback = ALLOWED_USER_ID ->
      userStates w !! ALLOWED_USER_ID = Some state ->
      Step state = "SELECT_CATEGORY" ->
      userStates (handleCallbackQuery ALLOWED_USER_ID categories callback w)
        !! ALLOWED_USER_ID =
      Some (set_Step "ENTER_AMOUNT" (set_Category (Data callback) state)))
  /\ (forall events,
      payloads_selected ALLOWED_USER_ID categories ParseFloat SUM
        (fun s => s = "income" \/ s = "expense") (fun s => s ∈ categories)
        events initial ->
      forall r,
        r ∈ transactions (run ALLOWED_USER_ID categories ParseFloat SUM events initial) ->
        (tx_type r = "income" \/ tx_type r = "expense") /\ tx_category r ∈ categories).
Proof.
  split.
  - intros callback w state Hu Hs Hstep.
    rewrite handleCallbackQuery_dialog by assumption. rewrite Hs, Hstep.
    cbn. apply lookup_insert_eq.
  - intros events Hpay r Hr.
    assert (Hinit : selection_inv (fun s => s = "income" \/ s = "expense")
                      (fun s => s ∈ categories) initial).
    { split; [intros k st H; cbn in H; rewrite lookup_empty in H; discriminate
             | constructor]. }
    destruct (selection_inv_run _ _ events initial Hinit Hpay) as [_ Hrows].
    rewrite Forall_forall in Hrows. exact (Hrows r Hr).
Qed.

(** *** Sessions stay keyed by their own user *)

Lemma wf_sessions_insert k st w :
  wf_sessions w -> UserID st = k -> wf_sessions (set_userStates (insert k st) w).
Proof.
  intros H Hst k' st'. cbn. rewrite lookup_insert.
  destruct (decide (k = k')) as [<- |]; [intros [= <-]; exact Hst | apply H].
Qed.

Lemma wf_sessions_delete k w :
  wf_sessions w -> wf_sessions (set_userStates (delete k) w).
Proof.
  intros H k' st'. cbn. rewrite lookup_delete.
  destruct (decide (k = k')); [discriminate | apply H].
Qed.

Lemma wf_sessions_handleUpdate env update w :
  wf_sessions w ->
  wf_sessions (handleUpdate ALLOWED_USER_ID categories ParseFloat SUM env update w).
Proof.
  intros H. unfold handleUpdate.
  destruct (upd_Message update) as [message |].
  - unfold handleMessage.
    destruct (negb _); [exact H |].
    destruct (String.eqb (Command message) "add");
      [apply wf_sessions_insert; [exact H | reflexivity] |].
    destruct (String.eqb (Command message) "summary").
    { unfold showSummary. destruct (query_err env); [exact H |].
      destruct (scanRows _). exact H. }
    destruct (String.eqb (Command message) "get_latest_report").
    { unfold get_latest_report. destruct (script_err env); exact H. }
    destruct (String.eqb (Command message) "get_weekly_expense").
    { unfold get_weekly_expense_report. destruct (script_err env); exact H. }
    destruct (userStates w !! From_ID message) as [state |] eqn:E; [| exact H].
    pose proof (H _ _ E) as Hid.
    destruct (String.eqb (Step state) "ENTER_AMOUNT").
    { unfold processAmount. destruct (ParseFloat (Text message)) as [amount err].
      destruct (bool_decide (err <> None) || (amount <=? 0)%float); [exact H |].
      apply wf_sessions_insert; [exact H | exact Hid]. }
    destruct (String.eqb (Step state) "ENTER_DESCRIPTION"); [| exact H].
    unfold processDescription.
    destruct (100 <? String.length (Text message))%nat; [exact H |].
    pose proof (wf_sessions_insert (From_ID message)
                  (set_Description (Text message) state) w H Hid) as H'.
    destruct (prepare_err env); [exact H' |].
    destruct (exec_err env); [exact H' |].
    apply (wf_sessions_delete _ _ H').
  - destruct (upd_CallbackQuery update) as [callback |]; [| exact H].
    unfold handleCallbackQuery.
    destruct (negb _); [exact H |].
    destruct (userStates w !! cb_From_ID callback) as [state |] eqn:E; [| exact H].
    pose proof (H _ _ E) as Hid.
    destruct (String.eqb (Step state) "SELECT_TYPE");
      [apply wf_sessions_insert; [exact H | exact Hid] |].
    destruct (String.eqb (Step state) "SELECT_CATEGORY");
      [apply wf_sessions_insert; [exact H | exact Hid] | exact H].
Qed.

(** Every state the loop reaches keeps each session under its own user. *)
Lemma wf_sessions_run events :
  forall w, wf_sessions w ->
            wf_sessions (run ALLOWED_USER_ID categories ParseFloat SUM events w).
Proof.
  induction events as [| [env update] events IH]; intros w H; [exact H |].
  cbn [run fold_left fst snd]. apply IH, wf_sessions_handleUpdate, H.
Qed.

(** *** Further properties of the handlers *)

(** The amount guard as the code has it: a text is accepted exactly when it
    parses without error to a value that is greater than zero or NaN, and
    refused exactly when parsing fails or the value is at most zero; one of
    the two always applies. *)
Theorem amount_guard :
  forall message ptr state w a err,
    ParseFloat (Text message) = (a, err) ->
    (err = None /\ ((0 <? a)%float = true \/ is_nan a = true) ->
     processAmount ParseFloat message ptr state w =
     sendMessage (Chat_ID message)
       "Enter a description for the transaction (max 100 characters)."
       (set_userStates
          (insert ptr (set_Step "ENTER_DESCRIPTION" (set_Amount a state))) w))
    /\ (err <> None \/ (a <=? 0)%float = true ->
        processAmount ParseFloat message ptr state w =
        sendMessage (Chat_ID message)
          "Invalid amount. Please enter a positive number." w)
    /\ ((err = None /\ ((0 <? a)%float = true \/ is_nan a = true))
        \/ (err <> None \/ (a <=? 0)%float = true)).
Proof.
  intros message ptr state w a err Hp. split; [| split].
  - intros [-> [H | H]];
      [apply processAmount_accepted | apply processAmount_nan]; assumption.
  - intros H. exact (processAmount_rejected message ptr state w a err Hp H).
  - destruct err as [e |]; [right; left; discriminate |].
    destruct (float_sign_cases a) as [H | [H | H]]; auto.
Qed.

(** The description guard as the code has it, for the authorized user at
    ENTER_DESCRIPTION: a text of at most 100 bytes, while the store accepts
    the write, appends one row with the accumulated fields and removes the
    session; a text of more than 100 bytes is refused and changes neither
    table nor sessions. *)
Theorem description_guard_counts_bytes :
  forall env message w state,
    From_ID message = ALLOWED_USER_ID ->
    Command message = "" ->
    userStates w !! ALLOWED_USER_ID = Some state ->
    Step state = "ENTER_DESCRIPTION" ->
    UserID state = ALLOWED_USER_ID ->
    ((String.length (Text message) <= 100)%nat ->
     prepare_err env = false -> exec_err env = false ->
     transactions (handleMessage ALLOWED_USER_ID ParseFloat SUM env message w) =
       transactions w ++ [committed_row env state (Text message)]
     /\ userStates (handleMessage ALLOWED_USER_ID ParseFloat SUM env message w) =
       delete ALLOWED_USER_ID (userStates w))
    /\ ((100 < String.length (Text message))%nat ->
        transactions (handleMessage ALLOWED_USER_ID ParseFloat SUM env message w) =
          transactions w
        /\ userStates (handleMessage ALLOWED_USER_ID ParseFloat SUM env message w) =
          userStates w).
Proof. exact description_by_byte_length. Qed.

(** Every state the loop reaches from the start keeps each session under
    the key of its own user. *)
Theorem reachable_sessions_keyed_by_user :
  forall events,
    wf_sessions (run ALLOWED_USER_ID categories ParseFloat SUM events initial).
Proof.
  intros events. apply wf_sessions_run.
  intros k st H. cbn in H. rewrite lookup_empty in H. discriminate.
Qed.

(** The month SQLite reads in the [created_at] of a committed row is the
    month of the commit time in GMT+7. *)
Theorem created_at_month_is_gmt7_month :
  forall env state d,
    0 <= GoTime.Year (GoTime.In (now env) (GoTime.FixedZone "GMT+7" (7 * 60 * 60)))
      <= 9999 ->
    strftime_m (tx_created_at (committed_row env state d)) =
    Some (GoTime.Format (GoTime.In (now env) (GoTime.FixedZone "GMT+7" (7 * 60 * 60)))
            GoTime.layout_01).
Proof.
  intros env state d H. exact (proj2 (Format_DateTime_month _ H)).
Qed.

Lemma sent_processAmount message ptr state w :
  exists msg, sent (processAmount ParseFloat message ptr state w) = sent w ++ [msg].
Proof.
  unfold processAmount. destruct (ParseFloat (Text message)) as [amount err].
  destruct (bool_decide (err <> None) || (amount <=? 0)%float); eexists; reflexivity.
Qed.

Lemma sent_processDescription env message ptr state w :
  exists msg, sent (processDescription env message ptr state w) = sent w ++ [msg].
Proof.
  unfold processDescription.
  destruct (100 <? String.length (Text message))%nat; [eexists; reflexivity |].
  destruct (prepare_err env); [eexists; reflexivity |].
  destruct (exec_err env); eexists; reflexivity.
Qed.

(** An update is answered by at most one outbound message, and never
    retracts one. *)
Theorem at_most_one_message_per_update :
  forall env update w,
    sent (handleUpdate ALLOWED_USER_ID categories ParseFloat SUM env update w) = sent w
    \/ exists msg,
        sent (handleUpdate ALLOWED_USER_ID categories ParseFloat SUM env update w)
        = sent w ++ [msg].
Proof.
  intros env update w. unfold handleUpdate.
  destruct (upd_Message update) as [message |].
  - unfold handleMessage.
    destruct (negb _); [right; eexists; reflexivity |].
    destruct (String.eqb (Command message) "add"); [right; eexists; reflexivity |].
    destruct (String.eqb (Command message) "summary").
    { right. unfold showSummary. destruct (query_err env); [eexists; reflexivity |].
      destruct (scanRows _). eexists; reflexivity. }
    destruct (String.eqb (Command message) "get_latest_report").
    { right. unfold get_latest_report. destruct (script_err env); eexists; reflexivity. }
    destruct (String.eqb (Command message) "get_weekly_expense").
    { right. unfold get_weekly_expense_report.
      destruct (script_err env); eexists; reflexivity. }
    destruct (userStates w !! From_ID message) as [state |];
      [| right; eexists; reflexivity].
    destruct (String.eqb (Step state) "ENTER_AMOUNT");
      [right; apply sent_processAmount |].
    destruct (String.eqb (Step state) "ENTER_DESCRIPTION");
      [right; apply sent_processDescription | left; reflexivity].
  - destruct (upd_CallbackQuery update) as [callback |]; [| left; reflexivity].
    unfold handleCallbackQuery.
    destruct (negb _); [right; eexists; reflexivity |].
    destruct (userStates w !! cb_From_ID callback) as [state |]; [| left; reflexivity].
    destruct (String.eqb (Step state) "SELECT_TYPE"); [right; eexists; reflexivity |].
    destruct (String.eqb (Step state) "SELECT_CATEGORY");
      [right; eexists; reflexivity | left; reflexivity].
Qed.

End BotFacts.

(** ** The dialog as a whole *)

Section DialogFacts.

Variable ALLOWED_USER_ID : Z.
Variable categories : list string.
Variable ParseFloat : string -> float * option GoStrconv.NumError.
Variable SUM : list float -> float.

(** *** Routing of commands and of events without a session *)

Lemma is_known_command_false (c : string) :
  is_known_command c = false ->
  String.eqb c "add" = false /\ String.eqb c "summary" = false
  /\ String.eqb c "get_latest_report" = false
  /\ String.eqb c "get_weekly_expense" = false.
Proof.
  unfold is_known_command. intros H.
  apply orb_false_elim in H as [H H4]. apply orb_false_elim in H as [H H3].
  apply orb_false_elim in H as [H1 H2]. repeat split; assumption.
Qed.

(** A message of the authorized user whose command is none of the four
    reaches the dialog switch. *)
Lemma handleMessage_default env message w :
  From_ID message = ALLOWED_USER_ID ->
  is_known_command (Command message) = false ->
  handleMessage ALLOWED_USER_ID ParseFloat SUM env message w =
  match userStates w !! ALLOWED_USER_ID with
  | Some state =>
      if String.eqb (Step state) "ENTER_AMOUNT" then
        processAmount ParseFloat message ALLOWED_USER_ID state w
      else if String.eqb (Step state) "ENTER_DESCRIPTION" then
        processDescription env message ALLOWED_USER_ID state w
      else w
  | None => sendMessage (Chat_ID message) "I don't understand that command." w
  end.
Proof.
  intros Hu Hc. destruct (is_known_command_false _ Hc) as (H1 & H2 & H3 & H4).
  unfold handleMessage. rewrite Hu, Z.eqb_refl, H1, H2, H3, H4. reflexivity.
Qed.

(** The text of a command the program does not know is handled as plain
    text: inside a dialog it is taken as the amount or the description,
    outside it is answered like any other text. *)
Theorem unknown_command_is_plain_text :
  forall env message w,
    is_known_command (Command message) = false ->
    handleMessage ALLOWED_USER_ID ParseFloat SUM env message w =
    handleMessage ALLOWED_USER_ID ParseFloat SUM env
      (mkMessage (From_ID message) (Chat_ID message) (Text message) "") w.
Proof.
  intros env message w Hc.
  destruct (is_known_command_false _ Hc) as (H1 & H2 & H3 & H4).
  unfold handleMessage. cbn [From_ID Chat_ID Text Command].
  rewrite H1, H2, H3, H4. cbn [String.eqb].
  destruct (negb _); [reflexivity |].
  destruct (userStates w !! From_ID message) as [state |]; [| reflexivity].
  destruct (String.eqb (Step state) "ENTER_AMOUNT"); [reflexivity |].
  destruct (String.eqb (Step state) "ENTER_DESCRIPTION"); reflexivity.
Qed.

(** The commands [/summary], [/get_latest_report] and
    [/get_weekly_expense] of the authorized user, at any point of a
    dialog, leave the sessions and the table as they are and answer with
    one message: for the two reports the output of the script, or the
    fixed failure text when it could not be run; for the summary the
    fixed error text when the query fails. *)
Theorem reporting_commands_keep_the_dialog :
  forall env message w,
    From_ID message = ALLOWED_USER_ID ->
    Command message = "summary" \/ Command message = "get_latest_report"
    \/ Command message = "get_weekly_expense" ->
    userStates (handleMessage ALLOWED_USER_ID ParseFloat SUM env message w) = userStates w
    /\ transactions (handleMessage ALLOWED_USER_ID ParseFloat SUM env message w)
       = transactions w
    /\ exists text,
        sent (handleMessage ALLOWED_USER_ID ParseFloat SUM env message w) =
          sent w ++ [NewMessage (Chat_ID message) text]
        /\ (Command message <> "summary" ->
            text = if script_err env then "Failed to execute the report."
                   else script_output env)
        /\ (Command message = "summary" -> query_err env = true ->
            text = "Error retrieving transactions.").
Proof.
  intros env message w Hu Hc. unfold handleMessage. rewrite Hu, Z.eqb_refl.
  cbn [negb]. destruct Hc as [Hc | [Hc | Hc]]; rewrite Hc; cbn [String.eqb].
  - change (("summary" =? "add")%string) with false.
    change (("summary" =? "summary")%string) with true. cbv iota.
    unfold showSummary. destruct (query_err env) eqn:Hq.
    + split; [reflexivity |]. split; [reflexivity |].
      eexists. split; [reflexivity |]. split; [congruence | reflexivity].
    + destruct (scanRows _) as [i e].
      split; [reflexivity |]. split; [reflexivity |].
      eexists. split; [reflexivity |]. split; [congruence | discriminate].
  - change (("get_latest_report" =? "add")%string) with false.
    change (("get_latest_report" =? "summary")%string) with false.
    change (("get_latest_report" =? "get_latest_report")%string) with true. cbv iota.
    unfold get_latest_report.
    destruct (script_err env); (split; [reflexivity |]); (split; [reflexivity |]);
      eexists; (split; [reflexivity |]); (split; [reflexivity | discriminate]).
  - change (("get_weekly_expense" =? "add")%string) with false.
    change (("get_weekly_expense" =? "summary")%string) with false.
    change (("get_weekly_expense" =? "get_latest_report")%string) with false.
    change (("get_weekly_expense" =? "get_weekly_expense")%string) with true. cbv iota.
    unfold get_weekly_expense_report.
    destruct (script_err env); (split; [reflexivity |]); (split; [reflexivity |]);
      eexists; (split; [reflexivity |]); (split; [reflexivity | discriminate]).
Qed.

(** Without a session, a text or unknown command of the authorized user is
    answered with the fixed reply and changes nothing else, and a tap on a
    button is ignored without any reply. *)
Theorem events_without_session :
  (forall env message w,
      From_ID message = ALLOWED_USER_ID ->
      is_known_command (Command message) = false ->
      userStates w !! ALLOWED_USER_ID = None ->
      handleMessage ALLOWED_USER_ID ParseFloat SUM env message w =
      sendMessage (Chat_ID message) "I don't understand that command." w)
  /\ (forall callback w,
      cb_From_ID callback = ALLOWED_USER_ID ->
      userStates w !! ALLOWED_USER_ID = None ->
      handleCallbackQuery ALLOWED_USER_ID categories callback w = w).
Proof.
  split.
  - intros env message w Hu Hc Hs.
    rewrite handleMessage_default by assumption. rewrite Hs. reflexivity.
  - intros callback w Hu Hs. unfold handleCallbackQuery.
    rewrite Hu, Z.eqb_refl, Hs. reflexivity.
Qed.

(** *** The table only grows *)

Lemma transactions_handleUpdate_grows env update w :
  exists rows,
    transactions (handleUpdate ALLOWED_USER_ID categories ParseFloat SUM env update w)
    = transactions w ++ rows
    /\ (length rows <= 1)%nat.
Proof.
  unfold handleUpdate. destruct (upd_Message update) as [message |].
  - destruct (transactions_handleMessage ALLOWED_USER_ID ParseFloat SUM env message w)
      as [H | (state & _ & H)]; rewrite H.
    + exists []. split; [symmetry; apply app_nil_r | cbn; lia].
    + eexists. split; [reflexivity | cbn; lia].
  - destruct (upd_CallbackQuery update) as [callback |].
    + rewrite transactions_handleCallbackQuery. exists [].
      split; [symmetry; apply app_nil_r | cbn; lia].
    + exists []. split; [symmetry; apply app_nil_r | cbn; lia].
Qed.

(** Whatever updates arrive, the rows the table held stay where they were,
    unchanged, and at most one row per update is added after them. *)
Theorem table_is_append_only :
  forall events w,
    exists rows,
      transactions (run ALLOWED_USER_ID categories ParseFloat SUM events w)
      = transactions w ++ rows
      /\ (length rows <= length events)%nat.
Proof.
  induction events as [| [env update] events IH]; intros w.
  - exists []. split; [symmetry; apply app_nil_r | cbn; lia].
  - cbn [run fold_left fst snd].
    destruct (transactions_handleUpdate_grows env update w) as (r1 & E1 & L1).
    destruct (IH (handleUpdate ALLOWED_USER_ID categories ParseFloat SUM env update w))
      as (r2 & E2 & L2).
    exists (r1 ++ r2). split.
    + unfold run in E2. rewrite E2, E1. symmetry. apply app_assoc.
    + rewrite length_app. cbn [length]. lia.
Qed.

(** *** Sessions of other users *)

Lemma others_handleUpdate env update w k :
  wf_sessions w ->
  k <> ALLOWED_USER_ID ->
  userStates (handleUpdate ALLOWED_USER_ID categories ParseFloat SUM env update w) !! k
  = userStates w !! k.
Proof.
  intros Hwf Hk. unfold handleUpdate.
  destruct (upd_Message update) as [message |].
  - unfold handleMessage.
    destruct (Z.eqb_spec (From_ID message) ALLOWED_USER_ID) as [Hu | Hu];
      [| reflexivity].
    cbn [negb]. rewrite Hu.
    destruct (String.eqb (Command message) "add");
      [cbn; apply lookup_insert_ne; congruence |].
    destruct (String.eqb (Command message) "summary").
    { unfold showSummary. destruct (query_err env); [reflexivity |].
      destruct (scanRows _). reflexivity. }
    destruct (String.eqb (Command message) "get_latest_report").
    { unfold get_latest_report. destruct (script_err env); reflexivity. }
    destruct (String.eqb (Command message) "get_weekly_expense").
    { unfold get_weekly_expense_report. destruct (script_err env); reflexivity. }
    destruct (userStates w !! ALLOWED_USER_ID) as [state |] eqn:E; [| reflexivity].
    pose proof (Hwf _ _ E) as Hid.
    destruct (String.eqb (Step state) "ENTER_AMOUNT").
    { unfold processAmount. destruct (ParseFloat (Text message)) as [amount err].
      destruct (bool_decide (err <> None) || (amount <=? 0)%float); [reflexivity |].
      cbn. apply lookup_insert_ne. congruence. }
    destruct (String.eqb (Step state) "ENTER_DESCRIPTION"); [| reflexivity].
    unfold processDescription.
    destruct (100 <? String.length (Text message))%nat; [reflexivity |].
    destruct (prepare_err env); [cbn; apply lookup_insert_ne; congruence |].
    destruct (exec_err env); [cbn; apply lookup_insert_ne; congruence |].
    cbn. rewrite Hid, lookup_delete_ne by congruence.
    apply lookup_insert_ne. congruence.
  - destruct (upd_CallbackQuery update) as [callback |]; [| reflexivity].
    unfold handleCallbackQuery.
    destruct (Z.eqb_spec (cb_From_ID callback) ALLOWED_USER_ID) as [Hu | Hu];
      [| reflexivity].
    cbn [negb]. rewrite Hu.
    destruct (userStates w !! ALLOWED_USER_ID) as [state |]; [| reflexivity].
    destruct (String.eqb (Step state) "SELECT_TYPE");
      [cbn; apply lookup_insert_ne; congruence |].
    destruct (String.eqb (Step state) "SELECT_CATEGORY");
      [cbn; apply lookup_insert_ne; congruence | reflexivity].
Qed.

(** In a session map whose entries are keyed by their own user, no run
    creates, changes or removes the entry of a user other than the
    authorized one. *)
Theorem other_users_sessions_untouched :
  forall events w k,
    wf_sessions w ->
    k <> ALLOWED_USER_ID ->
    userStates (run ALLOWED_USER_ID categories ParseFloat SUM events w) !! k
    = userStates w !! k.
Proof.
  induction events as [| [env update] events IH]; intros w k Hwf Hk; [reflexivity |].
  cbn [run fold_left fst snd].
  pose proof (IH (handleUpdate ALLOWED_USER_ID categories ParseFloat SUM env update w) k
                (wf_sessions_handleUpdate ALLOWED_USER_ID categories ParseFloat SUM
                   env update w Hwf) Hk) as H.
  unfold run in H. rewrite H. apply others_handleUpdate; assumption.
Qed.

(** *** Steps, amounts and descriptions that can be reached *)

Lemma dialog_inv_insert k st w :
  dialog_inv w -> state_valid st -> dialog_inv (set_userStates (insert k st) w).
Proof.
  intros [Hs Hr] Hst. split; [| exact Hr].
  intros k' st'. cbn. rewrite lookup_insert.
  destruct (decide (k = k')); [intros [= <-]; exact Hst | apply Hs].
Qed.

Lemma dialog_inv_delete k w :
  dialog_inv w -> dialog_inv (set_userStates (delete k) w).
Proof.
  intros [Hs Hr]. split; [| exact Hr].
  intros k' st'. cbn. rewrite lookup_delete.
  destruct (decide (k = k')); [discriminate | apply Hs].
Qed.

Lemma dialog_inv_handleUpdate env update w :
  dialog_inv w ->
  dialog_inv (handleUpdate ALLOWED_USER_ID categories ParseFloat SUM env update w).
Proof.
  intros Hinv. unfold handleUpdate.
  destruct (upd_Message update) as [message |].
  - unfold handleMessage.
    destruct (negb _); [exact Hinv |].
    destruct (String.eqb (Command message) "add").
    { apply (dialog_inv_insert _ _ w Hinv).
      split; [left; reflexivity | discriminate]. }
    destruct (String.eqb (Command message) "summary").
    { unfold showSummary. destruct (query_err env); [exact Hinv |].
      destruct (scanRows _). exact Hinv. }
    destruct (String.eqb (Command message) "get_latest_report").
    { unfold get_latest_report. destruct (script_err env); exact Hinv. }
    destruct (String.eqb (Command message) "get_weekly_expense").
    { unfold get_weekly_expense_report. destruct (script_err env); exact Hinv. }
    destruct (userStates w !! From_ID message) as [state |] eqn:E; [| exact Hinv].
    pose proof (proj1 Hinv _ _ E) as [Hstep Hamount].
    destruct (String.eqb_spec (Step state) "ENTER_AMOUNT") as [Ha | _].
    { unfold processAmount. destruct (ParseFloat (Text message)) as [amount err].
      destruct (bool_decide (err <> None)); [exact Hinv |].
      destruct (amount <=? 0)%float eqn:Hle; [exact Hinv |].
      apply (dialog_inv_insert _ _ w Hinv).
      split; [right; right; right; reflexivity | intros _; exact Hle]. }
    destruct (String.eqb_spec (Step state) "ENTER_DESCRIPTION") as [Hd | _];
      [| exact Hinv].
    unfold processDescription.
    destruct (Nat.ltb_spec 100 (String.length (Text message))) as [Hl | Hl];
      [exact Hinv |].
    assert (Hst : state_valid (set_Description (Text message) state))
      by (split; [exact Hstep | exact Hamount]).
    pose proof (dialog_inv_insert (From_ID message) _ w Hinv Hst) as Hinv'.
    destruct (prepare_err env); [exact Hinv' |].
    destruct (exec_err env); [exact Hinv' |].
    apply (dialog_inv_delete (UserID (set_Description (Text message) state))).
    destruct Hinv' as [Hs Hr]. split; [exact Hs |].
    cbn. apply Forall_app. split; [exact Hr |].
    constructor; [| constructor]. split; cbn; [exact (Hamount Hd) | exact Hl].
  - destruct (upd_CallbackQuery update) as [callback |]; [| exact Hinv].
    unfold handleCallbackQuery.
    destruct (negb _); [exact Hinv |].
    destruct (userStates w !! cb_From_ID callback) as [state |] eqn:E; [| exact Hinv].
    destruct (String.eqb (Step state) "SELECT_TYPE").
    { apply (dialog_inv_insert _ _ w Hinv).
      split; [right; left; reflexivity | discriminate]. }
    destruct (String.eqb (Step state) "SELECT_CATEGORY"); [| exact Hinv].
    apply (dialog_inv_insert _ _ w Hinv).
    split; [right; right; left; reflexivity | discriminate].
Qed.

Lemma dialog_inv_run events :
  forall w, dialog_inv w ->
            dialog_inv (run ALLOWED_USER_ID categories ParseFloat SUM events w).
Proof.
  induction events as [| [env update] events IH]; intros w H; [exact H |].
  cbn [run fold_left fst snd]. apply IH, dialog_inv_handleUpdate, H.
Qed.

Lemma dialog_inv_initial : dialog_inv initial.
Proof.
  split; [| constructor].
  intros k st H. cbn in H. rewrite lookup_empty in H. discriminate.
Qed.

(** Every session the loop reaches from the start is at one of the four
    steps SELECT_TYPE, SELECT_CATEGORY, ENTER_AMOUNT, ENTER_DESCRIPTION. *)
Theorem reachable_steps :
  forall events k st,
    userStates (run ALLOWED_USER_ID categories ParseFloat SUM events initial) !! k
    = Some st ->
    Step st = "SELECT_TYPE" \/ Step st = "SELECT_CATEGORY"
    \/ Step st = "ENTER_AMOUNT" \/ Step st = "ENTER_DESCRIPTION".
Proof.
  intros events k st H.
  exact (proj1 (proj1 (dialog_inv_run events initial dialog_inv_initial) k st H)).
Qed.

(** Every row the loop persists from the start has an amount that passed
    the guard, that is, one greater than zero or NaN, and a description of
    at most 100 bytes. *)
Theorem persisted_rows_passed_the_guards :
  forall events r,
    r ∈ transactions (run ALLOWED_USER_ID categories ParseFloat SUM events initial) ->
    ((0 <? tx_amount r)%float = true \/ is_nan (tx_amount r) = true)
    /\ (tx_amount r <=? 0)%float = false
    /\ (String.length (tx_description r) <= 100)%nat.
Proof.
  intros events r Hr.
  destruct (dialog_inv_run events initial dialog_inv_initial) as [_ Hrows].
  rewrite Forall_forall in Hrows. destruct (Hrows r Hr) as [Ha Hd].
  split; [| split; assumption].
  destruct (float_sign_cases (tx_amount r)) as [H | [H | H]];
    [left; exact H | congruence | right; exact H].
Qed.

(** *** Senders other than the authorized user cannot interfere *)

(** The handlers read the sessions and the table, never the messages
    already sent. *)
Lemma same_data_handleUpdate env update w1 w2 :
  same_data w1 w2 ->
  same_data (handleUpdate ALLOWED_USER_ID categories ParseFloat SUM env update w1)
            (handleUpdate ALLOWED_USER_ID categories ParseFloat SUM env update w2).
Proof.
  destruct w1 as [us1 tx1 s1], w2 as [us2 tx2 s2]. unfold same_data. cbn.
  intros [-> ->].
  unfold handleUpdate, handleMessage, handleCallbackQuery, startTransaction,
    showSummary, get_latest_report, get_weekly_expense_report, processAmount,
    processDescription, processTransactionType, processCategory. cbn.
  repeat match goal with
         | |- context [match ?x with _ => _ end] => destruct x
         end; cbn; split; reflexivity.
Qed.

Lemma same_data_trans w1 w2 w3 : same_data w1 w2 -> same_data w2 w3 -> same_data w1 w3.
Proof. intros [H1 H2] [H3 H4]. split; congruence. Qed.

(** An update that is not from the authorized user leaves sessions and
    table alone. *)
Lemma same_data_other_sender env update w :
  ~ sent_by ALLOWED_USER_ID (env, update) ->
  same_data (handleUpdate ALLOWED_USER_ID categories ParseFloat SUM env update w) w.
Proof.
  unfold sent_by, sender, handleUpdate. cbn [snd]. intros H.
  destruct (upd_Message update) as [message |].
  - rewrite handleMessage_unauthorized by congruence. split; reflexivity.
  - destruct (upd_CallbackQuery update) as [callback |]; [| split; reflexivity].
    rewrite handleCallbackQuery_unauthorized by congruence. split; reflexivity.
Qed.

Lemma same_data_run_filter events :
  forall w1 w2,
    same_data w1 w2 ->
    same_data (run ALLOWED_USER_ID categories ParseFloat SUM events w1)
              (run ALLOWED_USER_ID categories ParseFloat SUM
                 (filter (sent_by ALLOWED_USER_ID) events) w2).
Proof.
  induction events as [| [env update] events IH]; intros w1 w2 H; [exact H |].
  rewrite filter_cons. cbn [run fold_left fst snd].
  destruct (decide (sent_by ALLOWED_USER_ID (env, update))) as [Hs | Hs].
  - cbn [run fold_left fst snd]. apply IH, same_data_handleUpdate, H.
  - apply IH. apply (same_data_trans _ w1); [| exact H].
    apply same_data_other_sender, Hs.
Qed.

(** The sessions and the table after a run are those of the run with the
    updates of all other senders left out: what other users send changes
    no session and no row (it only gets them the rejection). *)
Theorem other_senders_do_not_interfere :
  forall events w,
    userStates (run ALLOWED_USER_ID categories ParseFloat SUM events w) =
      userStates (run ALLOWED_USER_ID categories ParseFloat SUM
                    (filter (sent_by ALLOWED_USER_ID) events) w)
    /\ transactions (run ALLOWED_USER_ID categories ParseFloat SUM events w) =
      transactions (run ALLOWED_USER_ID categories ParseFloat SUM
                      (filter (sent_by ALLOWED_USER_ID) events) w).
Proof.
  intros events w. apply same_data_run_filter. split; reflexivity.
Qed.

(** *** Refused inputs can be repeated without end *)

(** However many texts are refused as amounts (parse error, or a value at
    most zero), or as descriptions (more than 100 bytes), the session and
    the table stay as they were and each text gets the same reply: there
    is no count of attempts. *)
Theorem refused_inputs_never_exhaust :
  (forall texts w state,
      userStates w !! ALLOWED_USER_ID = Some state ->
      Step state = "ENTER_AMOUNT" ->
      Forall (fun em : Env * Message =>
                From_ID em.2 = ALLOWED_USER_ID
                /\ is_known_command (Command em.2) = false
                /\ ((ParseFloat (Text em.2)).2 <> None
                    \/ ((ParseFloat (Text em.2)).1 <=? 0)%float = true)) texts ->
      run ALLOWED_USER_ID categories ParseFloat SUM (map message_update texts) w =
      mkWorld (userStates w) (transactions w)
        (sent w ++
         map (fun em : Env * Message =>
                NewMessage (Chat_ID em.2)
                  "Invalid amount. Please enter a positive number.") texts))
  /\ (forall texts w state,
      userStates w !! ALLOWED_USER_ID = Some state ->
      Step state = "ENTER_DESCRIPTION" ->
      Forall (fun em : Env * Message =>
                From_ID em.2 = ALLOWED_USER_ID
                /\ is_known_command (Command em.2) = false
                /\ (100 < String.length (Text em.2))%nat) texts ->
      run ALLOWED_USER_ID categories ParseFloat SUM (map message_update texts) w =
      mkWorld (userStates w) (transactions w)
        (sent w ++
         map (fun em : Env * Message =>
                NewMessage (Chat_ID em.2)
                  "Description too long. Please keep it under 100 characters.") texts)).
Proof.
  split.
  - induction texts as [| [env message] texts IH]; intros w state Hs Hstep Hall.
    + cbn. rewrite app_nil_r. destruct w; reflexivity.
    + apply Forall_cons in Hall as [(Hu & Hc & Hbad) Hrest]. cbn [fst snd] in *.
      cbn [map message_update run fold_left fst snd handleUpdate upd_Message].
      rewrite handleMessage_default by assumption. rewrite Hs, Hstep.
      change (("ENTER_AMOUNT" =? "ENTER_AMOUNT")%string) with true. cbv iota.
      destruct (ParseFloat (Text message)) as [a err] eqn:Hp. cbn [fst snd] in Hbad.
      rewrite (processAmount_rejected ParseFloat message _ state w a err Hp Hbad).
      pose proof (IH (sendMessage (Chat_ID message)
                        "Invalid amount. Please enter a positive number." w)
                    state Hs Hstep Hrest) as E.
      unfold run in E. rewrite E. cbn. rewrite <- app_assoc. reflexivity.
  - induction texts as [| [env message] texts IH]; intros w state Hs Hstep Hall.
    + cbn. rewrite app_nil_r. destruct w; reflexivity.
    + apply Forall_cons in Hall as [(Hu & Hc & Hbad) Hrest]. cbn [fst snd] in *.
      cbn [map message_update run fold_left fst snd handleUpdate upd_Message].
      rewrite handleMessage_default by assumption. rewrite Hs, Hstep.
      change (("ENTER_DESCRIPTION" =? "ENTER_AMOUNT")%string) with false.
      change (("ENTER_DESCRIPTION" =? "ENTER_DESCRIPTION")%string) with true. cbv iota.
      rewrite processDescription_too_long by assumption.
      pose proof (IH (sendMessage (Chat_ID message)
                        "Description too long. Please keep it under 100 characters." w)
                    state Hs Hstep Hrest) as E.
      unfold run in E. rewrite E. cbn. rewrite <- app_assoc. reflexivity.
Qed.

(** *** A dialog from [/add] to the commit *)

(** The five transitions, each on any state of the process that meets its
    step. *)
Lemma step_add env message w :
  From_ID message = ALLOWED_USER_ID -> Command message = "add" ->
  handleUpdate ALLOWED_USER_ID categories ParseFloat SUM env
    (mkUpdate (Some message) None) w =
  mkWorld
    (<[ALLOWED_USER_ID := mkState ALLOWED_USER_ID "SELECT_TYPE" "" "" 0%float ""]>
       (userStates w))
    (transactions w)
    (sent w ++
     [NewMessageWithKeyboard (Chat_ID message) "Please choose the type of transaction:"
        [[("Income", "income"); ("Expense", "expense")]]]).
Proof.
  intros Hu Hc. cbn [handleUpdate upd_Message]. unfold handleMessage.
  rewrite Hu, Hc, Z.eqb_refl. reflexivity.
Qed.

Lemma step_type env callback w state :
  cb_From_ID callback = ALLOWED_USER_ID ->
  userStates w !! ALLOWED_USER_ID = Some state ->
  Step state = "SELECT_TYPE" ->
  handleUpdate ALLOWED_USER_ID categories ParseFloat SUM env
    (mkUpdate None (Some callback)) w =
  mkWorld
    (<[ALLOWED_USER_ID :=
         set_Step "SELECT_CATEGORY" (set_TransactionType (Data callback) state)]>
       (userStates w))
    (transactions w)
    (sent w ++
     [NewEditMessageTextAndMarkup (cb_Chat_ID callback) (cb_MessageID callback)
        ("You selected " +:+ Data callback +:+ ". Choose a category:")
        (map (fun category : string => [(category, category)]) categories)]).
Proof.
  intros Hu Hs Hstep. cbn [handleUpdate upd_Message upd_CallbackQuery].
  rewrite (handleCallbackQuery_dialog ALLOWED_USER_ID categories callback w Hu).
  rewrite Hs, Hstep. reflexivity.
Qed.

Lemma step_category env callback w state :
  cb_From_ID callback = ALLOWED_USER_ID ->
  userStates w !! ALLOWED_USER_ID = Some state ->
  Step state = "SELECT_CATEGORY" ->
  handleUpdate ALLOWED_USER_ID categories ParseFloat SUM env
    (mkUpdate None (Some callback)) w =
  mkWorld
    (<[ALLOWED_USER_ID := set_Step "ENTER_AMOUNT" (set_Category (Data callback) state)]>
       (userStates w))
    (transactions w)
    (sent w ++
     [NewEditMessageText (cb_Chat_ID callback) (cb_MessageID callback)
        ("Selected category: " +:+ Data callback
         +:+ ". Enter the transaction amount.")]).
Proof.
  intros Hu Hs Hstep. cbn [handleUpdate upd_Message upd_CallbackQuery].
  rewrite (handleCallbackQuery_dialog ALLOWED_USER_ID categories callback w Hu).
  rewrite Hs, Hstep. reflexivity.
Qed.

Lemma step_amount env message w state a :
  From_ID message = ALLOWED_USER_ID ->
  is_known_command (Command message) = false ->
  userStates w !! ALLOWED_USER_ID = Some state ->
  Step state = "ENTER_AMOUNT" ->
  ParseFloat (Text message) = (a, None) -> (a <=? 0)%float = false ->
  handleUpdate ALLOWED_USER_ID categories ParseFloat SUM env
    (mkUpdate (Some message) None) w =
  mkWorld
    (<[ALLOWED_USER_ID := set_Step "ENTER_DESCRIPTION" (set_Amount a state)]>
       (userStates w))
    (transactions w)
    (sent w ++
     [NewMessage (Chat_ID message)
        "Enter a description for the transaction (max 100 characters)."]).
Proof.
  intros Hu Hc Hs Hstep Hp Hle. cbn [handleUpdate upd_Message].
  rewrite handleMessage_default by assumption. rewrite Hs, Hstep.
  change (("ENTER_AMOUNT" =? "ENTER_AMOUNT")%string) with true. cbv iota.
  unfold processAmount. rewrite Hp, Hle.
  rewrite (bool_decide_eq_false_2 (None <> None)) by (intros H; apply H; reflexivity).
  reflexivity.
Qed.

Lemma step_description env message w state :
  From_ID message = ALLOWED_USER_ID ->
  is_known_command (Command message) = false ->
  userStates w !! ALLOWED_USER_ID = Some state ->
  Step state = "ENTER_DESCRIPTION" ->
  UserID state = ALLOWED_USER_ID ->
  (String.length (Text message) <= 100)%nat ->
  prepare_err env = false -> exec_err env = false ->
  handleUpdate ALLOWED_USER_ID categories ParseFloat SUM env
    (mkUpdate (Some message) None) w =
  mkWorld (delete ALLOWED_USER_ID (userStates w))
    (transactions w ++ [committed_row env state (Text message)])
    (sent w ++ [NewMessage (Chat_ID message) "Transaction added successfully!"]).
Proof.
  intros Hu Hc Hs Hstep Hid Hl Hp He. cbn [handleUpdate upd_Message].
  rewrite handleMessage_default by assumption. rewrite Hs, Hstep.
  change (("ENTER_DESCRIPTION" =? "ENTER_AMOUNT")%string) with false.
  change (("ENTER_DESCRIPTION" =? "ENTER_DESCRIPTION")%string) with true. cbv iota.
  rewrite processDescription_commit by assumption.
  unfold sendMessage, Send, set_userStates, Exec_insert.
  cbn [userStates transactions sent UserID set_Description].
  rewrite Hid, delete_insert_eq. reflexivity.
Qed.

(** From any state of the process, also in the middle of another dialog:
    [/add], a tap for the type, a tap for the category, a text that passes
    the amount guard and a text of at most 100 bytes, with the store
    accepting the write, append exactly one row, made of the two payloads,
    the parsed amount, the last text and the commit time in GMT+7; the
    session is gone afterwards, whatever it held before is not persisted,
    and the five steps are answered by the type keyboard, the category
    keyboard (one row per configured category), and three prompts. *)
Theorem full_dialog_commits_one_row :
  forall w e_add e_type e_cat e_amount e_desc m_add cb_type cb_cat m_amount m_desc a,
    From_ID m_add = ALLOWED_USER_ID -> Command m_add = "add" ->
    cb_From_ID cb_type = ALLOWED_USER_ID ->
    cb_From_ID cb_cat = ALLOWED_USER_ID ->
    From_ID m_amount = ALLOWED_USER_ID ->
    is_known_command (Command m_amount) = false ->
    ParseFloat (Text m_amount) = (a, None) -> (a <=? 0)%float = false ->
    From_ID m_desc = ALLOWED_USER_ID ->
    is_known_command (Command m_desc) = false ->
    (String.length (Text m_desc) <= 100)%nat ->
    prepare_err e_desc = false -> exec_err e_desc = false ->
    run ALLOWED_USER_ID categories ParseFloat SUM
      [(e_add, mkUpdate (Some m_add) None);
       (e_type, mkUpdate None (Some cb_type));
       (e_cat, mkUpdate None (Some cb_cat));
       (e_amount, mkUpdate (Some m_amount) None);
       (e_desc, mkUpdate (Some m_desc) None)] w =
    mkWorld (delete ALLOWED_USER_ID (userStates w))
      (transactions w ++
       [mkTransaction (Data cb_type) (Data cb_cat) a (Text m_desc)
          (GoTime.Format
             (GoTime.In (now e_desc) (GoTime.FixedZone "GMT+7" (7 * 60 * 60)))
             GoTime.layout_DateTime)])
      (sent w ++
       [NewMessageWithKeyboard (Chat_ID m_add) "Please choose the type of transaction:"
          [[("Income", "income"); ("Expense", "expense")]];
        NewEditMessageTextAndMarkup (cb_Chat_ID cb_type) (cb_MessageID cb_type)
          ("You selected " +:+ Data cb_type +:+ ". Choose a category:")
          (map (fun category : string => [(category, category)]) categories);
        NewEditMessageText (cb_Chat_ID cb_cat) (cb_MessageID cb_cat)
          ("Selected category: " +:+ Data cb_cat +:+ ". Enter the transaction amount.");
        NewMessage (Chat_ID m_amount)
          "Enter a description for the transaction (max 100 characters).";
        NewMessage (Chat_ID m_desc) "Transaction added successfully!"]).
Proof.
  intros w e_add e_type e_cat e_amount e_desc m_add cb_type cb_cat m_amount m_desc a
    Hu1 Hc1 Hu2 Hu3 Hu4 Hc4 Hp Hle Hu5 Hc5 Hl Hpe Hee.
  cbn [run fold_left fst snd].
  pose (s0 := mkState ALLOWED_USER_ID "SELECT_TYPE" "" "" 0%float "").
  pose (s1 := set_Step "SELECT_CATEGORY" (set_TransactionType (Data cb_type) s0)).
  pose (s2 := set_Step "ENTER_AMOUNT" (set_Category (Data cb_cat) s1)).
  pose (s3 := set_Step "ENTER_DESCRIPTION" (set_Amount a s2)).
  rewrite (step_add e_add m_add w Hu1 Hc1).
  rewrite (step_type e_type cb_type _ s0 Hu2 (lookup_insert_eq _ _ _) eq_refl).
  rewrite (step_category e_cat cb_cat _ s1 Hu3 (lookup_insert_eq _ _ _) eq_refl).
  rewrite (step_amount e_amount m_amount _ s2 a Hu4 Hc4 (lookup_insert_eq _ _ _)
             eq_refl Hp Hle).
  rewrite (step_description e_desc m_desc _ s3 Hu5 Hc5 (lookup_insert_eq _ _ _)
             eq_refl eq_refl Hl Hpe Hee).
  cbn [userStates transactions sent].
  f_equal.
  - rewrite !delete_insert_eq. reflexivity.
  - rewrite <- !app_assoc. reflexivity.
Qed.

(** C9. A completed dialog stores its row with the clock reading of the
    commit as [created_at]: the description step of the authorized user,
    with a text of at most 100 bytes and the store accepting the write,
    appends the row of the accumulated fields whose [created_at] is the
    clock of that update presented in the fixed zone GMT+7 under the
    layout 2006-01-02 15:04:05, and so do the five updates of a whole
    dialog from [/add]; no update adds a row with any other [created_at].
    That text is the clock reading moved seven hours east of UTC whatever
    the host's zone; the nanoseconds of the reading are dropped, and for a
    four-digit year it is nineteen characters of digits and separators,
    with nothing after the seconds. *)
Theorem created_at_is_commit_time_in_gmt7 :
  (forall env message w state,
      From_ID message = ALLOWED_USER_ID ->
      is_known_command (Command message) = false ->
      userStates w !! ALLOWED_USER_ID = Some state ->
      Step state = "ENTER_DESCRIPTION" ->
      (String.length (Text message) <= 100)%nat ->
      prepare_err env = false -> exec_err env = false ->
      transactions
        (handleUpdate ALLOWED_USER_ID categories ParseFloat SUM env
           (mkUpdate (Some message) None) w) =
      transactions w ++
      [mkTransaction (TransactionType state) (Category state) (Amount state)
         (Text message)
         (GoTime.Format
            (GoTime.In (now env) (GoTime.FixedZone "GMT+7" (7 * 60 * 60)))
            GoTime.layout_DateTime)])
  /\ (forall w e_add e_type e_cat e_amount e_desc m_add cb_type cb_cat m_amount m_desc a,
      From_ID m_add = ALLOWED_USER_ID -> Command m_add = "add" ->
      cb_From_ID cb_type = ALLOWED_USER_ID ->
      cb_From_ID cb_cat = ALLOWED_USER_ID ->
      From_ID m_amount = ALLOWED_USER_ID ->
      is_known_command (Command m_amount) = false ->
      ParseFloat (Text m_amount) = (a, None) -> (a <=? 0)%float = false ->
      From_ID m_desc = ALLOWED_USER_ID ->
      is_known_command (Command m_desc) = false ->
      (String.length (Text m_desc) <= 100)%nat ->
      prepare_err e_desc = false -> exec_err e_desc = false ->
      transactions
        (run ALLOWED_USER_ID categories ParseFloat SUM
           [(e_add, mkUpdate (Some m_add) None);
            (e_type, mkUpdate None (Some cb_type));
            (e_cat, mkUpdate None (Some cb_cat));
            (e_amount, mkUpdate (Some m_amount) None);
            (e_desc, mkUpdate (Some m_desc) None)] w) =
      transactions w ++
      [mkTransaction (Data cb_type) (Data cb_cat) a (Text m_desc)
         (GoTime.Format
            (GoTime.In (now e_desc) (GoTime.FixedZone "GMT+7" (7 * 60 * 60)))
            GoTime.layout_DateTime)])
  /\ (forall env update w,
      transactions (handleUpdate ALLOWED_USER_ID categories ParseFloat SUM env update w)
        = transactions w
      \/ exists row,
          transactions (handleUpdate ALLOWED_USER_ID categories ParseFloat SUM env update w)
            = transactions w ++ [row]
          /\ tx_created_at row =
             GoTime.Format
               (GoTime.In (now env) (GoTime.FixedZone "GMT+7" (7 * 60 * 60)))
               GoTime.layout_DateTime
          /\ tx_created_at row =
             GoTime.Format (GoTime.mkTime (GoTime.unix (now env)) 0 (7 * 3600))
               GoTime.layout_DateTime
          /\ tx_created_at row =
             GoTime.Format
               (GoTime.UTC (GoTime.mkTime (GoTime.unix (now env) + 7 * 3600) 0 0))
               GoTime.layout_DateTime
          /\ (0 <= GoTime.Year (GoTime.mkTime (GoTime.unix (now env)) 0 (7 * 3600)) <= 9999 ->
              is_datetime_text (tx_created_at row) = true))
  /\ (forall t : GoTime.Time,
      GoTime.Format (GoTime.In t (GoTime.FixedZone "GMT+7" (7 * 60 * 60)))
        GoTime.layout_DateTime =
      GoTime.Format (GoTime.mkTime (GoTime.unix t) 0 (7 * 3600)) GoTime.layout_DateTime
      /\ GoTime.Format (GoTime.In t (GoTime.FixedZone "GMT+7" (7 * 60 * 60)))
           GoTime.layout_DateTime =
         GoTime.Format (GoTime.UTC (GoTime.mkTime (GoTime.unix t + 7 * 3600) 0 0))
           GoTime.layout_DateTime
      /\ (0 <= GoTime.Year (GoTime.mkTime (GoTime.unix t) 0 (7 * 3600)) <= 9999 ->
          is_datetime_text
            (GoTime.Format (GoTime.In t (GoTime.FixedZone "GMT+7" (7 * 60 * 60)))
               GoTime.layout_DateTime) = true)).
Proof.
  assert (Zone : forall t : GoTime.Time,
             GoTime.Format (GoTime.In t (GoTime.FixedZone "GMT+7" (7 * 60 * 60)))
               GoTime.layout_DateTime =
             GoTime.Format (GoTime.mkTime (GoTime.unix t) 0 (7 * 3600))
               GoTime.layout_DateTime
             /\ GoTime.Format (GoTime.In t (GoTime.FixedZone "GMT+7" (7 * 60 * 60)))
                  GoTime.layout_DateTime =
                GoTime.Format (GoTime.UTC (GoTime.mkTime (GoTime.unix t + 7 * 3600) 0 0))
                  GoTime.layout_DateTime
             /\ (0 <= GoTime.Year (GoTime.mkTime (GoTime.unix t) 0 (7 * 3600)) <= 9999 ->
                 is_datetime_text
                   (GoTime.Format (GoTime.In t (GoTime.FixedZone "GMT+7" (7 * 60 * 60)))
                      GoTime.layout_DateTime) = true)).
  { intros t.
    assert (E1 : GoTime.Format (GoTime.In t (GoTime.FixedZone "GMT+7" (7 * 60 * 60)))
                   GoTime.layout_DateTime
                 = GoTime.Format (GoTime.mkTime (GoTime.unix t) 0 (7 * 3600))
                     GoTime.layout_DateTime)
      by (apply Format_abs; reflexivity).
    rewrite E1. split; [reflexivity |]. split.
    - apply Format_abs. unfold GoTime.abs. cbn. lia.
    - intros Hy. apply Format_DateTime_shape. exact Hy. }
  split; [| split; [| split; [| exact Zone]]].
  - intros env message w state Hu Hc Hs Hstep Hl Hpe Hee.
    cbn [handleUpdate upd_Message].
    rewrite handleMessage_default by assumption. rewrite Hs, Hstep.
    change (("ENTER_DESCRIPTION" =? "ENTER_AMOUNT")%string) with false.
    change (("ENTER_DESCRIPTION" =? "ENTER_DESCRIPTION")%string) with true. cbv iota.
    rewrite processDescription_commit by assumption. reflexivity.
  - intros w e_add e_type e_cat e_amount e_desc m_add cb_type cb_cat m_amount m_desc a
      Hu1 Hc1 Hu2 Hu3 Hu4 Hc4 Hp Hle Hu5 Hc5 Hl Hpe Hee.
    cbn [run fold_left fst snd].
    pose (s0 := mkState ALLOWED_USER_ID "SELECT_TYPE" "" "" 0%float "").
    pose (s1 := set_Step "SELECT_CATEGORY" (set_TransactionType (Data cb_type) s0)).
    pose (s2 := set_Step "ENTER_AMOUNT" (set_Category (Data cb_cat) s1)).
    pose (s3 := set_Step "ENTER_DESCRIPTION" (set_Amount a s2)).
    rewrite (step_add e_add m_add w Hu1 Hc1).
    rewrite (step_type e_type cb_type _ s0 Hu2 (lookup_insert_eq _ _ _) eq_refl).
    rewrite (step_category e_cat cb_cat _ s1 Hu3 (lookup_insert_eq _ _ _) eq_refl).
    rewrite (step_amount e_amount m_amount _ s2 a Hu4 Hc4 (lookup_insert_eq _ _ _)
               eq_refl Hp Hle).
    rewrite (step_description e_desc m_desc _ s3 Hu5 Hc5 (lookup_insert_eq _ _ _)
               eq_refl eq_refl Hl Hpe Hee).
    reflexivity.
  - intros env update w. unfold handleUpdate.
    destruct (upd_Message update) as [message |].
    + destruct (transactions_handleMessage ALLOWED_USER_ID ParseFloat SUM env message w)
        as [H | (state & _ & H)]; [left; exact H |].
      right. eexists. split; [exact H |].
      cbn [tx_created_at committed_row].
      destruct (Zone (now env)) as (Z1 & Z2 & Z3).
      split; [reflexivity |]. split; [exact Z1 |]. split; [exact Z2 | exact Z3].
    + destruct (upd_CallbackQuery update) as [callback |]; left;
        [apply transactions_handleCallbackQuery | reflexivity].
Qed.

(** *** The summary and the order of the result rows *)

Lemma fold_scanRow_total_of rows :
  forall incomeTotal expenseTotal,
    fold_left scanRow rows (incomeTotal, expenseTotal) =
    (total_of "income" rows incomeTotal, total_of "expense" rows expenseTotal).
Proof.
  induction rows as [| [t total] rows IH]; intros incomeTotal expenseTotal;
    [reflexivity |].
  cbn [fold_left total_of scanRow].
  destruct (String.eqb_spec t "income") as [-> | Hi]; [apply IH |].
  destruct (String.eqb_spec t "expense") as [-> | He]; apply IH.
Qed.

Lemma total_of_absent key rows :
  forall default, ~ In key (map fst rows) -> total_of key rows default = default.
Proof.
  induction rows as [| [t total] rows IH]; intros default H; [reflexivity |].
  cbn [total_of]. cbn [map fst In] in H.
  destruct (String.eqb_spec t key) as [E | E].
  - exfalso. apply H. left. exact E.
  - apply IH. intros Hin. apply H. right. exact Hin.
Qed.

Lemma total_of_present key v rows :
  forall default,
    List.NoDup (map fst rows) -> In (key, v) rows -> total_of key rows default = v.
Proof.
  induction rows as [| [t total] rows IH]; intros default Hnd Hin; [destruct Hin |].
  cbn [total_of]. cbn [map fst] in Hnd.
  apply List.NoDup_cons_iff in Hnd as [Hnotin Hnd].
  destruct Hin as [E | Hin].
  - injection E as -> ->. rewrite String.eqb_refl.
    apply total_of_absent. exact Hnotin.
  - apply IH; assumption.
Qed.

Lemma total_of_permutation key rows rows' default :
  List.NoDup (map fst rows) ->
  Permutation rows rows' ->
  total_of key rows default = total_of key rows' default.
Proof.
  intros Hnd Hperm.
  assert (Hnd' : List.NoDup (map fst rows'))
    by (apply (Permutation_NoDup (Permutation_map fst Hperm)); exact Hnd).
  destruct (in_dec string_dec key (map fst rows)) as [Hin | Hout].
  - apply in_map_iff in Hin as ([t v] & E & Hin). cbn [fst] in E. subst t.
    rewrite (total_of_present key v rows default Hnd Hin).
    symmetry. apply total_of_present; [exact Hnd' |].
    apply (Permutation_in _ Hperm). exact Hin.
  - rewrite (total_of_absent key rows default Hout).
    symmetry. apply total_of_absent. intros Hin. apply Hout.
    apply (Permutation_in _ (Permutation_sym (Permutation_map fst Hperm))). exact Hin.
Qed.

Lemma queryMonthlyTotals_types_NoDup month table :
  List.NoDup (map fst (queryMonthlyTotals SUM month table)).
Proof.
  unfold queryMonthlyTotals. rewrite map_map. cbn [fst]. rewrite map_id.
  apply NoDup_ListNoDup, NoDup_remove_dups.
Qed.

(** The query lists each type once, and the totals of the summary do not
    depend on the order in which its rows arrive: scanning any
    rearrangement of the result gives the same two totals. *)
Theorem summary_does_not_depend_on_row_order :
  forall month table,
    List.NoDup (map fst (queryMonthlyTotals SUM month table))
    /\ forall rows',
        Permutation (queryMonthlyTotals SUM month table) rows' ->
        scanRows rows' = scanRows (queryMonthlyTotals SUM month table).
Proof.
  intros month table. split; [apply queryMonthlyTotals_types_NoDup |].
  intros rows' Hperm. unfold scanRows. rewrite !fold_scanRow_total_of.
  f_equal; symmetry; apply total_of_permutation;
    solve [apply queryMonthlyTotals_types_NoDup | exact Hperm].
Qed.


End DialogFacts.


(** ** Startup *)

(** *** [strings.Split] and [strings.Join] on one-byte separators *)

Lemma Split_not_nil s sep : GoStrings.Split s sep <> [].
Proof.
  destruct s as [| c s]; cbn [GoStrings.Split]; [discriminate |].
  destruct (Ascii.eqb c sep); [discriminate |].
  destruct (GoStrings.Split s sep); discriminate.
Qed.

Lemma length_Split s sep :
  length (GoStrings.Split s sep) = S (GoStrings.Count s sep).
Proof.
  induction s as [| c s IH]; [reflexivity |].
  cbn [GoStrings.Split GoStrings.Count]. destruct (Ascii.eqb c sep).
  - cbn [length]. rewrite IH. reflexivity.
  - destruct (GoStrings.Split s sep) as [| piece pieces] eqn:E.
    + exfalso. exact (Split_not_nil s sep E).
    + cbn [length] in *. exact IH.
Qed.

Lemma Split_pieces_free s sep :
  Forall (fun piece => GoStrings.Count piece sep = O) (GoStrings.Split s sep).
Proof.
  induction s as [| c s IH]; [repeat constructor |].
  cbn [GoStrings.Split]. destruct (Ascii.eqb c sep) eqn:Ec.
  - constructor; [reflexivity | exact IH].
  - destruct (GoStrings.Split s sep) as [| piece pieces].
    + constructor; [cbn; rewrite Ec; reflexivity | constructor].
    + apply Forall_cons in IH as [Hp Hps].
      constructor; [cbn; rewrite Ec; exact Hp | exact Hps].
Qed.

(** Joining the pieces with the separator gives the text back. *)
Lemma Join_Split s sep :
  String.concat (String sep EmptyString) (GoStrings.Split s sep) = s.
Proof.
  induction s as [| c s IH]; [reflexivity |].
  cbn [GoStrings.Split]. destruct (Ascii.eqb_spec c sep) as [-> | Hc].
  - destruct (GoStrings.Split s sep) as [| piece pieces] eqn:E.
    + exfalso. exact (Split_not_nil s sep E).
    + change (String.concat (String sep "") ("" :: piece :: pieces))
        with (String sep (String.concat (String sep "") (piece :: pieces))).
      rewrite IH. reflexivity.
  - destruct (GoStrings.Split s sep) as [| piece pieces] eqn:E.
    + exfalso. exact (Split_not_nil s sep E).
    + destruct pieces as [| piece' pieces].
      * cbn [String.concat] in *. rewrite IH. reflexivity.
      * change (String.concat (String sep "") (String c piece :: piece' :: pieces))
          with (String c (String.concat (String sep "") (piece :: piece' :: pieces))).
        rewrite IH. reflexivity.
Qed.

Lemma Split_free piece sep :
  GoStrings.Count piece sep = O -> GoStrings.Split piece sep = [piece].
Proof.
  induction piece as [| c piece IH]; [reflexivity |].
  cbn [GoStrings.Count GoStrings.Split]. destruct (Ascii.eqb c sep); [discriminate |].
  intros H. rewrite (IH H). reflexivity.
Qed.

Lemma Split_app piece sep rest :
  GoStrings.Count piece sep = O ->
  GoStrings.Split (piece +:+ String sep rest) sep = piece :: GoStrings.Split rest sep.
Proof.
  induction piece as [| c piece IH].
  - intros _. change ("" +:+ String sep rest) with (String sep rest).
    cbn [GoStrings.Split]. rewrite Ascii.eqb_refl. reflexivity.
  - cbn [GoStrings.Count]. intros H.
    change (String c piece +:+ String sep rest)
      with (String c (piece +:+ String sep rest)).
    cbn [GoStrings.Split].
    destruct (Ascii.eqb c sep); [discriminate |].
    rewrite (IH H). reflexivity.
Qed.

(** Splitting the join of separator-free pieces gives the pieces back. *)
Lemma Split_Join pieces sep :
  pieces <> [] ->
  Forall (fun piece => GoStrings.Count piece sep = O) pieces ->
  GoStrings.Split (String.concat (String sep EmptyString) pieces) sep = pieces.
Proof.
  induction pieces as [| piece pieces IH]; [congruence |].
  intros _ Hall. apply Forall_cons in Hall as [Hp Hps].
  destruct pieces as [| piece' pieces].
  - cbn [String.concat]. apply Split_free, Hp.
  - change (String.concat (String sep "") (piece :: piece' :: pieces))
      with (piece +:+ String sep "" +:+ String.concat (String sep "") (piece' :: pieces)).
    change (String sep "" +:+ String.concat (String sep "") (piece' :: pieces))
      with (String sep (String.concat (String sep "") (piece' :: pieces))).
    rewrite (Split_app piece sep _ Hp). f_equal. apply IH; [discriminate | exact Hps].
Qed.

(** *** [strconv.ParseInt] reads what [strconv.FormatInt] writes *)










(** *** The configuration [main] reads *)

Section MainFacts.

Variable TrimSpace : string -> string.
Variable ParseFloat : string -> float * option GoStrconv.NumError.
Variable SUM : list float -> float.

(** The category list is never empty: an empty CATEGORIES setting gives
    the nine default names, and any other setting gives one category per
    comma-separated piece, each piece trimmed (as many categories as
    commas plus one, empty names included); the pieces contain no comma
    and, joined by commas, are the setting. *)
Theorem categories_from_setting :
  forall catStr,
    loadCategories TrimSpace catStr <> []
    /\ (catStr = "" -> loadCategories TrimSpace catStr = default_categories)
    /\ (catStr <> "" ->
        length (loadCategories TrimSpace catStr) = S (GoStrings.Count catStr ",")
        /\ exists pieces,
            loadCategories TrimSpace catStr = map TrimSpace pieces
            /\ String.concat "," pieces = catStr
            /\ Forall (fun piece => GoStrings.Count piece "," = O) pieces).
Proof.
  intros catStr. unfold loadCategories.
  destruct (String.eqb_spec catStr "") as [-> | Hne]; cbn [negb].
  - split; [discriminate |]. split; [reflexivity | congruence].
  - split; [| split; [congruence |]].
    + intros H. apply map_eq_nil in H. exact (Split_not_nil _ _ H).
    + intros _. split.
      * rewrite length_map. apply length_Split.
      * exists (GoStrings.Split catStr ","). split; [reflexivity |].
        split; [apply Join_Split | apply Split_pieces_free].
Qed.

(** A list of names that contain no comma and that trimming leaves as they
    are is read back from its comma-separated setting, unless that
    setting is the empty text (no name, or the single empty name). *)
Theorem categories_round_trip :
  forall names,
    String.concat "," names <> "" ->
    Forall (fun name => GoStrings.Count name "," = O /\ TrimSpace name = name) names ->
    loadCategories TrimSpace (String.concat "," names) = names.
Proof.
  intros names Hne Hall. unfold loadCategories.
  destruct (String.eqb_spec (String.concat "," names) "") as [E | _]; [contradiction |].
  cbn [negb].
  assert (Hnil : names <> []) by (intros ->; apply Hne; reflexivity).
  rewrite Split_Join; [| exact Hnil |].
  - clear Hne Hnil. induction names as [| name names IH]; [reflexivity |].
    apply Forall_cons in Hall as [[_ Ht] Hrest]. cbn [map].
    rewrite Ht, (IH Hrest). reflexivity.
  - clear Hne Hnil. induction Hall as [| name names [Hc _] _ IH]; constructor; assumption.
Qed.




End MainFacts.


(** * Concrete runs *)

(** *** Amounts (C1) *)

(** C1 (the code departs from it). The text NaN parses without error to a
    value that is not greater than zero, and yet, submitted at ENTER_AMOUNT,
    it is accepted: the step advances to ENTER_DESCRIPTION and the amount
    recorded is NaN. *)
Theorem amount_NaN_is_accepted :
  (exists st, userStates at_amount !! me = Some st /\ Step st = "ENTER_AMOUNT")
  /\ GoStrconv.ParseFloat "NaN" = (nan, None)
  /\ (0 <? nan)%float = false
  /\ (exists st',
        userStates (bot [(at_time noon, text_from me "NaN")] at_amount) !! me = Some st'
        /\ Step st' = "ENTER_DESCRIPTION"
        /\ Amount st' = nan)
  /\ sent (bot [(at_time noon, text_from me "NaN")] at_amount) =
     sent at_amount ++
     [NewMessage 7 "Enter a description for the transaction (max 100 characters)."].
Proof.
  split; [eexists; split; vm_compute; reflexivity |].
  split; [vm_compute; reflexivity |].
  split; [vm_compute; reflexivity |].
  split; [eexists; repeat split; vm_compute; reflexivity |].
  vm_compute; reflexivity.
Qed.

Example amount_zero_is_rejected :
  bot [(at_time noon, text_from me "0")] at_amount =
  sendMessage 7 "Invalid amount. Please enter a positive number." at_amount.
Proof. vm_compute. reflexivity. Qed.

Example amount_one_cent_is_accepted :
  userStates (bot [(at_time noon, text_from me "0.01")] at_amount) !! me =
  Some (mkState me "ENTER_DESCRIPTION" "expense" "Food" 0x1.47ae147ae147bp-7%float "").
Proof. vm_compute. reflexivity. Qed.

Example amount_negative_is_rejected :
  bot [(at_time noon, text_from me "-3")] at_amount =
  sendMessage 7 "Invalid amount. Please enter a positive number." at_amount.
Proof. vm_compute. reflexivity. Qed.

Example amount_text_is_rejected :
  bot [(at_time noon, text_from me "ten")] at_amount =
  sendMessage 7 "Invalid amount. Please enter a positive number." at_amount.
Proof. vm_compute. reflexivity. Qed.

(** *** Descriptions (C3) *)

(** C3 (the code departs from it). A description of 51 characters, each the
    two-byte letter e with an acute accent, is at most 100 characters long
    but 102 bytes long; submitted at ENTER_DESCRIPTION while the store
    accepts writes, it is refused as too long: no row is appended and the
    session stays. *)
Theorem description_of_51_characters_is_refused :
  RuneCountInString (repeat_string 51 e_acute) = 51%nat
  /\ String.length (repeat_string 51 e_acute) = 102%nat
  /\ (exists st, userStates at_description !! me = Some st
                 /\ Step st = "ENTER_DESCRIPTION")
  /\ bot [(at_time noon, text_from me (repeat_string 51 e_acute))] at_description =
     sendMessage 7 "Description too long. Please keep it under 100 characters."
       at_description.
Proof.
  split; [vm_compute; reflexivity |].
  split; [vm_compute; reflexivity |].
  split; [eexists; split; vm_compute; reflexivity |].
  vm_compute; reflexivity.
Qed.

Example description_of_100_bytes_is_committed :
  transactions (bot [(at_time noon, text_from me (repeat_string 100 "x"))] at_description) =
    [mkTransaction "expense" "Food" 12.5%float (repeat_string 100 "x")
       "2026-10-30 19:00:00"]
  /\ userStates (bot [(at_time noon, text_from me (repeat_string 100 "x"))] at_description)
       !! me = None.
Proof. split; vm_compute; reflexivity. Qed.

Example description_of_101_bytes_is_refused :
  bot [(at_time noon, text_from me (repeat_string 101 "x"))] at_description =
  sendMessage 7 "Description too long. Please keep it under 100 characters."
    at_description.
Proof. vm_compute. reflexivity. Qed.

(** The dialog of the specification: expense, Food, 12.50, lunch. *)
Example full_dialog :
  bot [(at_time noon, text_from me "lunch")] at_description =
  mkWorld ∅
    [mkTransaction "expense" "Food" 12.5%float "lunch" "2026-10-30 19:00:00"]
    (sent at_description ++ [NewMessage 7 "Transaction added successfully!"]).
Proof. vm_compute. reflexivity. Qed.

(** *** Selections (C2) *)

(** The claim of C2 fails: [/add] is sent twice, so that the first
    keyboard (message 1) still offers Income and Expense; after Income is
    chosen on the second (message 2), a tap on Expense of the first
    delivers the payload expense at SELECT_CATEGORY; it is recorded as the
    category and persisted, although it is not one of the configured
    categories. *)
Lemma stale_button_payload_is_persisted :
  transactions
    (bot [(at_time noon, command_from me "add");
          (at_time noon, command_from me "add");
          (at_time noon, tap_from me 2 "income");
          (at_time noon, tap_from me 1 "expense");
          (at_time noon, text_from me "5");
          (at_time noon, text_from me "lunch")] initial) =
    [mkTransaction "income" "expense" 5%float "lunch" "2026-10-30 19:00:00"]
  /\ ~ ("expense" ∈ default_categories)
  /\ ~ (forall events r,
          r ∈ transactions (bot events initial) ->
          (tx_type r = "income" \/ tx_type r = "expense")
          /\ tx_category r ∈ default_categories).
Proof.
  assert (Hnot : ~ ("expense" ∈ default_categories)).
  { unfold default_categories. rewrite list_elem_of_In. cbn. intuition discriminate. }
  split; [vm_compute; reflexivity |].
  split; [exact Hnot |].
  intros H.
  specialize (H [(at_time noon, command_from me "add");
                 (at_time noon, command_from me "add");
                 (at_time noon, tap_from me 2 "income");
                 (at_time noon, tap_from me 1 "expense");
                 (at_time noon, text_from me "5");
                 (at_time noon, text_from me "lunch")]
                (mkTransaction "income" "expense" 5%float "lunch" "2026-10-30 19:00:00")).
  destruct H as [_ H]; [| exact (Hnot H)].
  replace (transactions _) with
    [mkTransaction "income" "expense" 5%float "lunch" "2026-10-30 19:00:00"]
    by (vm_compute; reflexivity).
  apply list_elem_of_here.
Qed.

(** A dialog whose payloads are among the options offered. *)
Lemma persisted_selection_is_payload_witness :
  payloads_selected me default_categories GoStrconv.ParseFloat SUM_fold
    (fun s => s = "income" \/ s = "expense") (fun s => s ∈ default_categories)
    [(at_time noon, command_from me "add");
     (at_time noon, tap_from me 1 "expense");
     (at_time noon, tap_from me 1 "Food");
     (at_time noon, text_from me "12.50");
     (at_time noon, text_from me "lunch")] initial
  /\ forall r,
      r ∈ transactions
            (bot [(at_time noon, command_from me "add");
                  (at_time noon, tap_from me 1 "expense");
                  (at_time noon, tap_from me 1 "Food");
                  (at_time noon, text_from me "12.50");
                  (at_time noon, text_from me "lunch")] initial) ->
      (tx_type r = "income" \/ tx_type r = "expense")
      /\ tx_category r ∈ default_categories.
Proof.
  assert (Hpay : payloads_selected me default_categories GoStrconv.ParseFloat SUM_fold
                   (fun s => s = "income" \/ s = "expense")
                   (fun s => s ∈ default_categories)
                   [(at_time noon, command_from me "add");
                    (at_time noon, tap_from me 1 "expense");
                    (at_time noon, tap_from me 1 "Food");
                    (at_time noon, text_from me "12.50");
                    (at_time noon, text_from me "lunch")] initial).
  { cbn [payloads_selected].
    split; [vm_compute; exact I |].
    split; [vm_compute; split; intros H; [right; reflexivity | discriminate H] |].
    split; [vm_compute; split; intros H; [discriminate H | apply list_elem_of_here] |].
    split; [vm_compute; exact I |].
    split; [vm_compute; exact I |].
    exact I. }
  split; [exact Hpay |].
  exact (proj2 (persisted_selection_is_payload me default_categories
                  GoStrconv.ParseFloat SUM_fold) _ Hpay).
Defined.

(** *** Unauthorized senders, [/add], events of the wrong kind *)

(** User 99, who is not the authorized one, sends [/add], and taps a
    button, while user 42 is in the middle of a dialog. *)
Lemma unauthorized_rejected_witness :
  (userStates (handleMessage me GoStrconv.ParseFloat SUM_fold (at_time noon)
                 (mkMessage 99 8 "/add" "add") at_amount) = userStates at_amount
   /\ transactions (handleMessage me GoStrconv.ParseFloat SUM_fold (at_time noon)
                      (mkMessage 99 8 "/add" "add") at_amount) = transactions at_amount
   /\ sent (handleMessage me GoStrconv.ParseFloat SUM_fold (at_time noon)
              (mkMessage 99 8 "/add" "add") at_amount) =
      sent at_amount ++ [NewMessage 8 "You are not authorized to use this bot."])
  /\ (userStates (handleCallbackQuery me default_categories
                    (mkCallback 99 8 1 "income") at_amount) = userStates at_amount
      /\ transactions (handleCallbackQuery me default_categories
                         (mkCallback 99 8 1 "income") at_amount) = transactions at_amount
      /\ sent (handleCallbackQuery me default_categories
                 (mkCallback 99 8 1 "income") at_amount) =
         sent at_amount ++ [NewMessage 8 "You are not authorized to use this bot."]).
Proof.
  split.
  - apply (proj1 (unauthorized_rejected_sessions_unchanged me default_categories
                    GoStrconv.ParseFloat SUM_fold)).
    cbn. unfold me. lia.
  - apply (proj2 (unauthorized_rejected_sessions_unchanged me default_categories
                    GoStrconv.ParseFloat SUM_fold)).
    cbn. unfold me. lia.
Defined.

(** [/add] in the middle of a dialog starts over. *)
Lemma add_installs_fresh_state_witness :
  userStates (handleMessage me GoStrconv.ParseFloat SUM_fold (at_time noon)
                (mkMessage me 7 "/add" "add") at_description) =
    <[me := mkState me "SELECT_TYPE" "" "" 0%float ""]> (userStates at_description)
  /\ userStates (handleMessage me GoStrconv.ParseFloat SUM_fold (at_time noon)
                   (mkMessage me 7 "/add" "add") at_description) !! me =
     Some (mkState me "SELECT_TYPE" "" "" 0%float "").
Proof.
  apply (add_installs_fresh_state me GoStrconv.ParseFloat SUM_fold); reflexivity.
Defined.

(** A tap while the amount is awaited, and a text while the type is
    awaited. *)
Lemma wrong_kind_event_is_noop_witness :
  handleCallbackQuery me default_categories (mkCallback me 7 1 "income") at_amount
    = at_amount
  /\ handleMessage me GoStrconv.ParseFloat SUM_fold (at_time noon)
       (mkMessage me 7 "hello" "")
       (bot [(at_time noon, command_from me "add")] initial)
     = bot [(at_time noon, command_from me "add")] initial.
Proof.
  split.
  - apply (proj1 (wrong_kind_event_is_noop me default_categories
                    GoStrconv.ParseFloat SUM_fold)
             (mkCallback me 7 1 "income") at_amount
             (mkState me "ENTER_AMOUNT" "expense" "Food" 0%float ""));
      [reflexivity | vm_compute; reflexivity | left; reflexivity].
  - apply (proj2 (wrong_kind_event_is_noop me default_categories
                    GoStrconv.ParseFloat SUM_fold)
             (at_time noon) (mkMessage me 7 "hello" "")
             (bot [(at_time noon, command_from me "add")] initial)
             (mkState me "SELECT_TYPE" "" "" 0%float ""));
      [reflexivity | reflexivity | vm_compute; reflexivity | left; reflexivity].
Defined.

(** *** A failed commit (C6) *)

(** The claim of C6 fails in one field: a description submitted while
    [db.Prepare] fails is written into the session before the store is
    tried, so the session afterwards differs from the one before. *)
Lemma commit_failure_sets_description :
  userStates at_description !! me =
    Some (mkState me "ENTER_DESCRIPTION" "expense" "Food" 12.5%float "")
  /\ prepare_err (prepare_fails noon) = true
  /\ userStates after_failed_commit !! me =
     Some (mkState me "ENTER_DESCRIPTION" "expense" "Food" 12.5%float "lunch")
  /\ userStates after_failed_commit <> userStates at_description.
Proof.
  assert (H1 : userStates at_description !! me =
               Some (mkState me "ENTER_DESCRIPTION" "expense" "Food" 12.5%float ""))
    by (vm_compute; reflexivity).
  assert (H2 : userStates after_failed_commit !! me =
               Some (mkState me "ENTER_DESCRIPTION" "expense" "Food" 12.5%float "lunch"))
    by (vm_compute; reflexivity).
  split; [exact H1 |]. split; [reflexivity |]. split; [exact H2 |].
  intros E. rewrite E, H1 in H2. discriminate H2.
Qed.

(** The same failure, and the retry that commits. *)
Lemma commit_failure_keeps_session_witness :
  sent after_failed_commit =
    sent at_description ++ [NewMessage 7 "Failed to prepare transaction."]
  /\ transactions after_failed_commit = transactions at_description
  /\ userStates after_failed_commit !! me =
     Some (mkState me "ENTER_DESCRIPTION" "expense" "Food" 12.5%float "lunch")
  /\ transactions (bot [(at_time noon, text_from me "lunch again")] after_failed_commit) =
     [mkTransaction "expense" "Food" 12.5%float "lunch again" "2026-10-30 19:00:00"]
  /\ userStates (bot [(at_time noon, text_from me "lunch again")] after_failed_commit)
       !! me = None.
Proof.
  pose proof (commit_failure_keeps_session me GoStrconv.ParseFloat SUM_fold
                (prepare_fails noon) (mkMessage me 7 "lunch" "") at_description
                (mkState me "ENTER_DESCRIPTION" "expense" "Food" 12.5%float "")
                eq_refl eq_refl ltac:(vm_compute; reflexivity) eq_refl eq_refl
                ltac:(vm_compute; lia) (or_introl eq_refl))
    as (Hsent & Htx & Hmap & _ & Hretry).
  destruct (Hretry (at_time noon) (mkMessage me 7 "lunch again" "")
              eq_refl eq_refl ltac:(vm_compute; lia) eq_refl eq_refl) as [Hc Hd].
  split; [exact Hsent |]. split; [exact Htx |].
  split.
  { pose proof (f_equal (fun m : gmap Z TransactionState => m !! me) Hmap) as Hl.
    cbn beta in Hl. rewrite lookup_insert_eq in Hl. exact Hl. }
  split; [exact Hc | exact Hd].
Defined.

(** *** The summary (C7) *)


(** A row of another type, and a row of another month, change nothing. *)
Example summary_skips_other_rows :
  sent (showSummary SUM_fold (at_time noon) 7
          (mkWorld ∅
             (mkTransaction "transfer" "Rent" 999%float "moved" "2026-10-07 10:00:00"
              :: mkTransaction "income" "Salary" 7%float "old" "2026-09-30 23:59:59"
              :: transactions october_table) [])) =
  sent (showSummary SUM_fold (at_time noon) 7 october_table).
Proof. vm_compute. reflexivity. Qed.

(** The month is compared without the year: a row of October 2025 counts
    in October 2026. *)
Example summary_counts_same_month_of_other_years :
  sent (showSummary SUM_fold (at_time noon) 7
          (mkWorld ∅
             [mkTransaction "income" "Salary" 100%float "pay" "2025-10-05 09:00:00"] [])) =
    [NewMessage 7
       ("Monthly Summary Report for October 2026:" +:+ nl +:+ nl
        +:+ "Total Income: 100.00" +:+ nl
        +:+ "Total Expense: 0.00" +:+ nl +:+ nl
        +:+ "Balance: 100.00")].
Proof. vm_compute. reflexivity. Qed.

(** *** The amount guard, the byte length, the month edge *)

Lemma amount_guard_witness :
  processAmount GoStrconv.ParseFloat (mkMessage me 7 "12.50" "") me
    (mkState me "ENTER_AMOUNT" "expense" "Food" 0%float "") at_amount =
  sendMessage 7 "Enter a description for the transaction (max 100 characters)."
    (set_userStates
       (insert me (mkState me "ENTER_DESCRIPTION" "expense" "Food" 12.5%float "")) at_amount).
Proof.
  apply (proj1 (amount_guard GoStrconv.ParseFloat (mkMessage me 7 "12.50" "") me
                  (mkState me "ENTER_AMOUNT" "expense" "Food" 0%float "") at_amount
                  12.5%float None ltac:(vm_compute; reflexivity))).
  split; [reflexivity | left; vm_compute; reflexivity].
Defined.

Lemma description_guard_counts_bytes_witness :
  transactions (handleMessage me GoStrconv.ParseFloat SUM_fold (at_time noon)
                  (mkMessage me 7 "lunch" "") at_description) =
    transactions at_description ++
    [committed_row (at_time noon)
       (mkState me "ENTER_DESCRIPTION" "expense" "Food" 12.5%float "") "lunch"]
  /\ userStates (handleMessage me GoStrconv.ParseFloat SUM_fold (at_time noon)
                   (mkMessage me 7 "lunch" "") at_description) =
     delete me (userStates at_description).
Proof.
  apply (proj1 (description_guard_counts_bytes me GoStrconv.ParseFloat SUM_fold
                  (at_time noon) (mkMessage me 7 "lunch" "") at_description
                  (mkState me "ENTER_DESCRIPTION" "expense" "Food" 12.5%float "")
                  eq_refl eq_refl ltac:(vm_compute; reflexivity) eq_refl eq_refl));
    [vm_compute; lia | reflexivity | reflexivity].
Defined.

Lemma created_at_month_is_gmt7_month_witness :
  strftime_m (tx_created_at
                (committed_row (at_time noon)
                   (mkState me "ENTER_DESCRIPTION" "expense" "Food" 12.5%float "")
                   "lunch")) = Some "10".
Proof.
  rewrite (created_at_month_is_gmt7_month (at_time noon)
             (mkState me "ENTER_DESCRIPTION" "expense" "Food" 12.5%float "") "lunch")
    by (vm_compute; split; discriminate).
  vm_compute. reflexivity.
Defined.

(** 2026-10-31 18:30:00 UTC is 2026-11-01 01:30:00 in GMT+7: a row
    committed then is stamped November, and the summary asked for at the
    same instant, which reads October in UTC, does not count it. *)
Example summary_misses_row_across_month_edge :
  transactions (bot [(at_time 1793471400, text_from me "late dinner")] at_description) =
    [mkTransaction "expense" "Food" 12.5%float "late dinner" "2026-11-01 01:30:00"]
  /\ sent (showSummary SUM_fold (at_time 1793471400) 7
             (bot [(at_time 1793471400, text_from me "late dinner")] at_description)) =
     sent (bot [(at_time 1793471400, text_from me "late dinner")] at_description) ++
     [NewMessage 7
        ("Monthly Summary Report for October 2026:" +:+ nl +:+ nl
         +:+ "Total Income: 0.00" +:+ nl
         +:+ "Total Expense: 0.00" +:+ nl +:+ nl
         +:+ "Balance: 0.00")].
Proof. split; vm_compute; reflexivity. Qed.

(** *** Unknown commands, reports, events without a session *)

Lemma unknown_command_is_plain_text_witness :
  handleMessage me GoStrconv.ParseFloat SUM_fold (at_time noon)
    (mkMessage me 7 "/help" "help") at_amount =
  handleMessage me GoStrconv.ParseFloat SUM_fold (at_time noon)
    (mkMessage me 7 "/help" "") at_amount.
Proof.
  apply (unknown_command_is_plain_text me GoStrconv.ParseFloat SUM_fold (at_time noon)
           (mkMessage me 7 "/help" "help") at_amount).
  reflexivity.
Defined.

Lemma reporting_commands_keep_the_dialog_witness :
  userStates (handleMessage me GoStrconv.ParseFloat SUM_fold (at_time noon)
                (mkMessage me 7 "/summary" "summary") at_amount) =
    userStates at_amount
  /\ transactions (handleMessage me GoStrconv.ParseFloat SUM_fold (at_time noon)
                     (mkMessage me 7 "/summary" "summary") at_amount) =
     transactions at_amount.
Proof.
  destruct (reporting_commands_keep_the_dialog me GoStrconv.ParseFloat SUM_fold
              (at_time noon) (mkMessage me 7 "/summary" "summary") at_amount
              eq_refl (or_introl eq_refl)) as (Hs & Ht & _).
  split; [exact Hs | exact Ht].
Defined.

Lemma events_without_session_witness :
  handleMessage me GoStrconv.ParseFloat SUM_fold (at_time noon)
    (mkMessage me 7 "hello" "") initial =
  sendMessage 7 "I don't understand that command." initial.
Proof.
  apply (proj1 (events_without_session me default_categories GoStrconv.ParseFloat
                  SUM_fold) (at_time noon) (mkMessage me 7 "hello" "") initial);
    reflexivity.
Defined.

(** *** Sessions and rows the loop reaches *)

Lemma other_users_sessions_untouched_witness :
  userStates
    (bot [(at_time noon, text_from 43 "5"); (at_time noon, command_from me "add")]
       (mkWorld {[43 := mkState 43 "ENTER_AMOUNT" "expense" "Food" 0%float ""]} [] []))
    !! 43 = Some (mkState 43 "ENTER_AMOUNT" "expense" "Food" 0%float "").
Proof.
  unfold bot.
  rewrite (other_users_sessions_untouched me default_categories GoStrconv.ParseFloat
             SUM_fold
             [(at_time noon, text_from 43 "5"); (at_time noon, command_from me "add")]
             (mkWorld {[43 := mkState 43 "ENTER_AMOUNT" "expense" "Food" 0%float ""]}
                [] []) 43).
  - apply lookup_singleton_eq.
  - intros k st H. cbn [userStates] in H.
    apply lookup_singleton_Some in H as [<- <-]. reflexivity.
  - discriminate.
Defined.

Lemma reachable_steps_witness :
  Step (mkState me "ENTER_AMOUNT" "expense" "Food" 0%float "") = "SELECT_TYPE"
  \/ Step (mkState me "ENTER_AMOUNT" "expense" "Food" 0%float "") = "SELECT_CATEGORY"
  \/ Step (mkState me "ENTER_AMOUNT" "expense" "Food" 0%float "") = "ENTER_AMOUNT"
  \/ Step (mkState me "ENTER_AMOUNT" "expense" "Food" 0%float "") = "ENTER_DESCRIPTION".
Proof.
  apply (reachable_steps me default_categories GoStrconv.ParseFloat SUM_fold
           [(at_time noon, command_from me "add");
            (at_time noon, tap_from me 1 "expense");
            (at_time noon, tap_from me 1 "Food")] me).
  vm_compute. reflexivity.
Defined.

Lemma persisted_rows_passed_the_guards_witness :
  ((0 <? 12.5)%float = true \/ is_nan 12.5%float = true)
  /\ (12.5 <=? 0)%float = false
  /\ (String.length "lunch" <= 100)%nat.
Proof.
  apply (persisted_rows_passed_the_guards me default_categories GoStrconv.ParseFloat
           SUM_fold
           [(at_time noon, command_from me "add");
            (at_time noon, tap_from me 1 "expense");
            (at_time noon, tap_from me 1 "Food");
            (at_time noon, text_from me "12.50");
            (at_time noon, text_from me "lunch")]
           (mkTransaction "expense" "Food" 12.5%float "lunch" "2026-10-30 19:00:00")).
  vm_compute. apply list_elem_of_here.
Defined.

(** *** Refused amounts; a dialog that replaces another *)

Lemma refused_inputs_never_exhaust_witness :
  bot (map message_update
         [(at_time noon, mkMessage me 7 "abc" "");
          (at_time noon, mkMessage me 7 "-3" "");
          (at_time noon, mkMessage me 7 "0" "")]) at_amount =
  mkWorld (userStates at_amount) (transactions at_amount)
    (sent at_amount ++
     [NewMessage 7 "Invalid amount. Please enter a positive number.";
      NewMessage 7 "Invalid amount. Please enter a positive number.";
      NewMessage 7 "Invalid amount. Please enter a positive number."]).
Proof.
  apply (proj1 (refused_inputs_never_exhaust me default_categories GoStrconv.ParseFloat
                  SUM_fold)
           [(at_time noon, mkMessage me 7 "abc" "");
            (at_time noon, mkMessage me 7 "-3" "");
            (at_time noon, mkMessage me 7 "0" "")]
           at_amount (mkState me "ENTER_AMOUNT" "expense" "Food" 0%float "")).
  - vm_compute. reflexivity.
  - reflexivity.
  - repeat constructor; solve [left; vm_compute; discriminate | right; vm_compute; reflexivity].
Defined.

Lemma full_dialog_commits_one_row_witness :
  bot [(at_time noon, command_from me "add");
       (at_time noon, tap_from me 2 "income");
       (at_time noon, tap_from me 2 "Salary");
       (at_time noon, text_from me "100");
       (at_time noon, text_from me "pay")] at_description =
  mkWorld (delete me (userStates at_description))
    (transactions at_description ++
     [mkTransaction "income" "Salary" 100%float "pay" "2026-10-30 19:00:00"])
    (sent at_description ++
     [NewMessageWithKeyboard 7 "Please choose the type of transaction:"
        [[("Income", "income"); ("Expense", "expense")]];
      NewEditMessageTextAndMarkup 7 2 "You selected income. Choose a category:"
        (map (fun category : string => [(category, category)]) default_categories);
      NewEditMessageText 7 2 "Selected category: Salary. Enter the transaction amount.";
      NewMessage 7 "Enter a description for the transaction (max 100 characters).";
      NewMessage 7 "Transaction added successfully!"]).
Proof.
  apply (full_dialog_commits_one_row me default_categories GoStrconv.ParseFloat SUM_fold
           at_description (at_time noon) (at_time noon) (at_time noon) (at_time noon)
           (at_time noon)
           (mkMessage me 7 "/add" "add") (mkCallback me 7 2 "income")
           (mkCallback me 7 2 "Salary") (mkMessage me 7 "100" "")
           (mkMessage me 7 "pay" "") 100%float);
    solve [reflexivity | vm_compute; reflexivity | vm_compute; lia].
Defined.

(** *** The summary on a rearranged result *)

Lemma summary_does_not_depend_on_row_order_witness :
  scanRows [("expense", 40%float); ("income", 100%float)] =
  scanRows (queryMonthlyTotals SUM_fold "10" (transactions october_table)).
Proof.
  apply (proj2 (summary_does_not_depend_on_row_order SUM_fold "10"
                  (transactions october_table))).
  vm_compute. apply perm_swap.
Defined.

(** *** The configuration *)

Example categories_are_split_and_trimmed :
  loadCategories GoStrings.TrimSpace_ascii "Food, Rent ,,Bills " =
  ["Food"; "Rent"; ""; "Bills"].
Proof. vm_compute. reflexivity. Qed.

Example ParseInt_values :
  GoStrconvInt.ParseInt "42" = (42, None)
  /\ GoStrconvInt.ParseInt "-9223372036854775808" = (- 2 ^ 63, None)
  /\ GoStrconvInt.ParseInt "+7" = (7, None)
  /\ GoStrconvInt.ParseInt "9223372036854775808"
     = (2 ^ 63 - 1, Some GoStrconv.ErrRange)
  /\ GoStrconvInt.ParseInt "" = (0, Some GoStrconv.ErrSyntax)
  /\ GoStrconvInt.ParseInt "12a" = (0, Some GoStrconv.ErrSyntax)
  /\ GoStrconvInt.ParseInt " 12" = (0, Some GoStrconv.ErrSyntax)
  /\ GoStrconvInt.ParseInt "-" = (0, Some GoStrconv.ErrSyntax).
Proof. repeat split; vm_compute; reflexivity. Qed.

Lemma categories_round_trip_witness :
  loadCategories GoStrings.TrimSpace_ascii "Food,Rent" = ["Food"; "Rent"].
Proof.
  apply (categories_round_trip GoStrings.TrimSpace_ascii ["Food"; "Rent"]).
  - discriminate.
  - repeat constructor.
Defined.



Example ParseInt_beyond_int64 :
  GoStrconvInt.ParseInt "99999999999999999999" = (2 ^ 63 - 1, Some GoStrconv.ErrRange)
  /\ GoStrconvInt.ParseInt "-99999999999999999999" = (- 2 ^ 63, Some GoStrconv.ErrRange)
  /\ GoStrconvInt.ParseInt "-9223372036854775809" = (- 2 ^ 63, Some GoStrconv.ErrRange).
Proof. repeat split; vm_compute; reflexivity. Qed.

(** *** The commit time; the totals of a result with a row of another type *)

Lemma created_at_is_commit_time_in_gmt7_witness :
  transactions
    (handleUpdate me default_categories GoStrconv.ParseFloat SUM_fold (at_time noon)
       (text_from me "lunch") at_description) =
  transactions at_description ++
  [mkTransaction "expense" "Food" 12.5%float "lunch" "2026-10-30 19:00:00"].
Proof.
  apply (proj1 (created_at_is_commit_time_in_gmt7 me default_categories
                  GoStrconv.ParseFloat SUM_fold)
           (at_time noon) (mkMessage me 7 "lunch" "") at_description
           (mkState me "ENTER_DESCRIPTION" "expense" "Food" 12.5%float ""));
    solve [reflexivity | vm_compute; reflexivity | vm_compute; lia].
Defined.

